(** * ASI-GO: cognition base, researcher and analyst

    A shallow embedding of [cognition_base.py], [researcher.py] and
    [analyst.py].  The three classes keep their mutable attributes in one
    [World]; every method is a computation in a state-and-exception monad
    over that world, so that a mutation made before an exception is raised
    stays visible afterwards, as in Python.  The language model, the clock
    and the knowledge file are reached through the [Environment] interface. *)

From Stdlib Require Import ZArith String Ascii List Floats Lia.
From Stdlib Require Uint63.
From stdpp Require Import base option list gmap strings pretty.

Local Open Scope string_scope.
Local Open Scope Z_scope.
Local Open Scope list_scope.

(* Python reads the literals 0.7 and 0.3 as the nearest binary64 values, and
   so does [float_scope]. *)
#[local] Set Warnings "-inexact-float".

(** ** Python strings

    A string is a sequence of code points below 256.  [py_lower],
    [py_isspace] and [py_split] follow [str.lower], [str.isspace] and
    [str.split()] on that range. *)

Definition py_lower_char (c : ascii) : ascii :=
  let n := nat_of_ascii c in
  if ((65 <=? n)%nat && (n <=? 90)%nat)
     || ((192 <=? n)%nat && (n <=? 222)%nat && negb (n =? 215)%nat)
  then ascii_of_nat (n + 32) else c.

Fixpoint py_lower (s : string) : string :=
  match s with
  | EmptyString => EmptyString
  | String c rest => String (py_lower_char c) (py_lower rest)
  end.

Definition py_isspace (c : ascii) : bool :=
  let n := nat_of_ascii c in
  ((9 <=? n)%nat && (n <=? 13)%nat) || ((28 <=? n)%nat && (n <=? 32)%nat)
  || (n =? 133)%nat || (n =? 160)%nat.

(** [split_from word s]: [word] holds the characters of the current word in
    reverse; runs of whitespace separate words and produce no empty word. *)
Fixpoint split_from (word : list ascii) (s : string) : list string :=
  let flush := match word with
               | [] => []
               | _ => [string_of_list_ascii (rev word)]
               end in
  match s with
  | EmptyString => flush
  | String c rest =>
      if py_isspace c then flush ++ split_from [] rest
      else split_from (c :: word) rest
  end.

Definition py_split (s : string) : list string := split_from [] s.

(** [py_in sub s] is Python's [sub in s] on strings: [sub] occurs in [s] as a
    contiguous substring. *)
Fixpoint py_in (sub s : string) : bool :=
  String.prefix sub s
  || match s with
     | EmptyString => false
     | String _ rest => py_in sub rest
     end.

(** [s[:n]] *)
Definition py_take (n : nat) (s : string) : string := String.substring 0 n s.

(** ** Exceptions and results *)

Inductive exception : Type :=
  PyExc (cls : string) (msg : string).

(** [str(e)] *)
Definition exc_str (e : exception) : string :=
  match e with PyExc _ msg => msg end.

Inductive result (A : Type) : Type :=
| Ok (a : A)
| Raise (e : exception).
Arguments Ok {A} a.
Arguments Raise {A} e.

Definition is_ok {A} (r : result A) : bool :=
  match r with Ok _ => true | Raise _ => false end.

(** ** Data model

    The dictionaries the program passes around are records here, with the
    keys of each kind of dictionary as fields.  A record has all its keys, so
    the default of a [.get(key, default)] is never taken, except for the three
    optional keys of a test result: [t_output] and [t_error] are [None] when
    the key is absent or holds [None], and [t_issues] is empty when the key
    is absent.  A strategy without ["applicable_to"] has no tag.  Floats are
    binary64 values, as in Python. *)

(** What an insight's ["strategy"] entry can hold: nothing (the key is absent
    or [None]), one strategy name, or a list of names. *)
Inductive strategy_ref : Type :=
| RefNone
| RefName (s : string)
| RefNames (names : list string).

#[global] Instance strategy_ref_eq_dec : EqDecision strategy_ref.
Proof. solve_decision. Defined.

#[global] Instance strategy_ref_countable : Countable strategy_ref.
Proof.
  refine (inj_countable'
    (fun r => match r with
              | RefNone => inl ()
              | RefName s => inr (inl s)
              | RefNames l => inr (inr l)
              end)
    (fun x => match x with
              | inl _ => RefNone
              | inr (inl s) => RefName s
              | inr (inr l) => RefNames l
              end) _).
  by intros [].
Defined.

(** Truth value of [i.get("strategy")]. *)
Definition ref_truthy (r : strategy_ref) : bool :=
  match r with
  | RefNone => false
  | RefName s => negb (String.eqb s "")
  | RefNames l => match l with [] => false | _ => true end
  end.

(** [hash(r)]: a [list] is unhashable. *)
Definition ref_hashable (r : strategy_ref) : bool :=
  match r with
  | RefNames _ => false
  | _ => true
  end.

Record Strategy : Type := {
  s_name : string;
  s_description : string;
  s_applicable_to : list string;
  s_example : string
}.

Record Insight : Type := {
  i_goal : string;
  i_strategy : strategy_ref;
  i_success : bool;
  i_key_learning : string;
  i_significance : float;
  i_timestamp : option string
}.

(** [insight["timestamp"] = t] *)
Definition set_timestamp (t : string) (insight : Insight) : Insight :=
  {| i_goal := i_goal insight; i_strategy := i_strategy insight;
     i_success := i_success insight; i_key_learning := i_key_learning insight;
     i_significance := i_significance insight; i_timestamp := Some t |}.

(** A record of some category of the catalogue. *)
Inductive entry : Type :=
| Strat (s : Strategy)
| CommonError (type description prevention : string)
| Technique (name description use_case : string)
| Learned (i : Insight).

(** [e.get("applicable_to", [])] *)
Definition entry_applicable_to (e : entry) : list string :=
  match e with
  | Strat s => s_applicable_to s
  | _ => []
  end.

(** [e['name']] and [e['description']]; a missing key is a [KeyError]. *)
Definition entry_name (e : entry) : result string :=
  match e with
  | Strat s => Ok (s_name s)
  | Technique name _ _ => Ok name
  | _ => Raise (PyExc "KeyError" "'name'")
  end.

Definition entry_description (e : entry) : result string :=
  match e with
  | Strat s => Ok (s_description s)
  | CommonError _ description _ => Ok description
  | Technique _ description _ => Ok description
  | Learned _ => Raise (PyExc "KeyError" "'description'")
  end.

(** The knowledge catalogue: category name to the records of the category. *)
Abbreviation Knowledge := (gmap string (list entry)).

Record Proposal : Type := {
  p_goal : string;
  p_solution : string;
  p_strategies_used : list string;
  p_iteration : Z;
  p_refined_from : option Z
}.

Record TestResult : Type := {
  t_success : bool;
  t_output : option string;
  t_error : option string;
  t_issues : list string
}.

Record Validation : Type := {
  v_meets_goal : bool;
  v_confidence : float;
  v_notes : list string
}.

Record Analysis : Type := {
  a_iteration : Z;
  a_success : bool;
  a_analysis : string;
  a_test_result : TestResult;
  a_validation : Validation
}.

Record Summary : Type := {
  total_insights : nat;
  insights : list Insight;
  strategies_used : gset strategy_ref
}.

(** ** The environment

    The text sent to the language model is a fixed template around the values
    interpolated into it; a [prompt] is the template together with those
    values, in the order the f-string lists them. *)

Inductive prompt : Type :=
| ProposalPrompt (goal : string) (strategies : list (string * string))
    (previous_error : option (option string))
| RefinementPrompt (goal solution : string) (success : bool)
    (error output : option string) (issues : list string)
| AnalysisPrompt (goal : string) (iteration : Z) (strategies_used : list string)
    (success : bool) (output_preview : string) (error : option string)
    (issues : list string) (meets_goal : bool) (confidence : float)
    (notes : list string).

(** What the program calls outside itself: [LLMInterface.query],
    [datetime.now().isoformat()], [os.path.exists], [open] with [json.load]
    and [open] with [json.dump].  Any of the calls that can fail returns a
    [result]; the language model and the file system have a state of their
    own, which a call may change. *)
Class Environment (E : Type) : Type := {
  query : prompt -> string -> E -> result string * E;
  now_isoformat : E -> string * E;
  path_exists : string -> E -> bool;
  json_load : string -> E -> result Knowledge;
  json_dump : string -> Knowledge -> E -> result unit * E
}.

Inductive level : Type := INFO | WARNING | ERROR.

(** What the program did to the outside, in order. *)
Inductive event : Type :=
| Log (logger : string) (lvl : level) (msg : string)
| Query (p : prompt) (system_prompt : string)
| Load (path : string)
| Dump (path : string) (k : Knowledge).

(** The attributes of the [CognitionBase], of the [Researcher] and of the
    [Analyst] that share it, with the environment and the trace of events. *)
Record World (E : Type) : Type := {
  env : E;
  knowledge_file : string;
  knowledge : Knowledge;
  session_insights : list Insight;
  proposal_history : list Proposal;
  analyses : list Analysis;
  trace : list event
}.
Arguments env {E} _.
Arguments knowledge_file {E} _.
Arguments knowledge {E} _.
Arguments session_insights {E} _.
Arguments proposal_history {E} _.
Arguments analyses {E} _.
Arguments trace {E} _.

Section Setters.
Context {E : Type}.

Definition set_env (e : E) (w : World E) : World E :=
  {| env := e; knowledge_file := knowledge_file w; knowledge := knowledge w;
     session_insights := session_insights w;
     proposal_history := proposal_history w; analyses := analyses w;
     trace := trace w |}.

Definition set_knowledge_file (f : string) (w : World E) : World E :=
  {| env := env w; knowledge_file := f; knowledge := knowledge w;
     session_insights := session_insights w;
     proposal_history := proposal_history w; analyses := analyses w;
     trace := trace w |}.

Definition set_knowledge (k : Knowledge) (w : World E) : World E :=
  {| env := env w; knowledge_file := knowledge_file w; knowledge := k;
     session_insights := session_insights w;
     proposal_history := proposal_history w; analyses := analyses w;
     trace := trace w |}.

Definition set_session_insights (l : list Insight) (w : World E) : World E :=
  {| env := env w; knowledge_file := knowledge_file w; knowledge := knowledge w;
     session_insights := l;
     proposal_history := proposal_history w; analyses := analyses w;
     trace := trace w |}.

Definition set_proposal_history (l : list Proposal) (w : World E) : World E :=
  {| env := env w; knowledge_file := knowledge_file w; knowledge := knowledge w;
     session_insights := session_insights w;
     proposal_history := l; analyses := analyses w;
     trace := trace w |}.

Definition set_analyses (l : list Analysis) (w : World E) : World E :=
  {| env := env w; knowledge_file := knowledge_file w; knowledge := knowledge w;
     session_insights := session_insights w;
     proposal_history := proposal_history w; analyses := l;
     trace := trace w |}.

Definition emit (ev : event) (w : World E) : World E :=
  {| env := env w; knowledge_file := knowledge_file w; knowledge := knowledge w;
     session_insights := session_insights w;
     proposal_history := proposal_history w; analyses := analyses w;
     trace := trace w ++ [ev] |}.
End Setters.

(** ** The monad of methods *)

Definition M (E A : Type) : Type := World E -> result A * World E.

#[global] Instance M_ret {E} : MRet (M E) :=
  fun A (a : A) w => (Ok a, w).

#[global] Instance M_bind {E} : MBind (M E) :=
  fun A B (k : A -> M E B) (m : M E A) w =>
    match m w with
    | (Ok a, w') => k a w'
    | (Raise e, w') => (Raise e, w')
    end.

Section Operations.
Context {E : Type} `{!Environment E}.

Definition raise {A} (e : exception) : M E A := fun w => (Raise e, w).

(** [try: body  except Exception as e: handler e] *)
Definition try_except {A} (body : M E A) (handler : exception -> M E A) : M E A :=
  fun w =>
    match body w with
    | (Ok a, w') => (Ok a, w')
    | (Raise e, w') => handler e w'
    end.

Definition lift {A} (r : result A) : M E A := fun w => (r, w).
Definition gets {A} (f : World E -> A) : M E A := fun w => (Ok (f w), w).
Definition modify (f : World E -> World E) : M E unit := fun w => (Ok tt, f w).

Definition logging (logger : string) (lvl : level) (msg : string) : M E unit :=
  modify (emit (Log logger lvl msg)).

Definition llm_query (p : prompt) (system_prompt : string) : M E string :=
  fun w =>
    let '(r, e) := query p system_prompt (env w) in
    (r, set_env e (emit (Query p system_prompt) w)).

Definition now : M E string :=
  fun w => let '(t, e) := now_isoformat (env w) in (Ok t, set_env e w).

Definition exists_file (path : string) : M E bool :=
  gets (fun w => path_exists path (env w)).

Definition load_file (path : string) : M E Knowledge :=
  fun w => (json_load path (env w), emit (Load path) w).

Definition dump_file (path : string) (k : Knowledge) : M E unit :=
  fun w =>
    let '(r, e) := json_dump path k (env w) in
    (r, set_env e (emit (Dump path k) w)).

(** A comprehension or loop whose body may raise. *)
Fixpoint for_each {A B} (f : A -> result B) (l : list A) : result (list B) :=
  match l with
  | [] => Ok []
  | x :: rest =>
      match f x with
      | Raise e => Raise e
      | Ok y => match for_each f rest with
                | Raise e => Raise e
                | Ok ys => Ok (y :: ys)
                end
      end
  end.
End Operations.

(** ** cognition_base.py *)

Module CognitionBase.
Section Methods.
Context {E : Type} `{!Environment E}.

Definition logger : string := "ASI-GO.CognitionBase".

Definition divide_and_conquer : Strategy :=
  {| s_name := "Divide and Conquer";
     s_description := "Break complex problems into smaller subproblems";
     s_applicable_to := ["optimization"; "search"; "mathematical problems"];
     s_example := "Finding prime numbers by checking divisibility up to sqrt(n)" |}.

Definition iterative_refinement : Strategy :=
  {| s_name := "Iterative Refinement";
     s_description := "Start with a basic solution and improve it iteratively";
     s_applicable_to := ["algorithms"; "numerical methods"; "approximations"];
     s_example := "Newton's method for finding roots" |}.

Definition pattern_recognition : Strategy :=
  {| s_name := "Pattern Recognition";
     s_description := "Identify patterns in the problem to simplify the solution";
     s_applicable_to := ["sequences"; "mathematical series"; "data analysis"];
     s_example := "Recognizing Fibonacci patterns in problems" |}.

(** The patterns a fresh knowledge base starts from. *)
Definition seed : Knowledge :=
  {[ "strategies" :=
       [ Strat divide_and_conquer; Strat iterative_refinement;
         Strat pattern_recognition ];
     "common_errors" :=
       [ CommonError "Off-by-one errors"
           "Errors in loop boundaries or array indices"
           "Carefully check loop conditions and test edge cases";
         CommonError "Integer overflow"
           "Results exceeding data type limits"
           "Use appropriate data types and check for overflow conditions" ];
     "optimization_techniques" :=
       [ Technique "Memoization"
           "Cache results of expensive function calls"
           "Recursive algorithms with overlapping subproblems";
         Technique "Early termination"
           "Stop computation when result is found or impossible"
           "Search algorithms and validation checks" ] ]}.

Definition _load_knowledge : M E Knowledge :=
  path ← gets knowledge_file;
  present ← exists_file path;
  loaded ← (if present : bool then
              try_except (k ← load_file path; mret (Some k))
                (fun e =>
                   logging logger WARNING
                     ("Could not load knowledge file: " ++ exc_str e);;
                   mret None)
            else mret None);
  match loaded with
  | Some k => mret k
  | None => mret seed
  end.

Definition init : M E unit :=
  modify (set_knowledge_file "cognition_knowledge.json");;
  k ← _load_knowledge;
  modify (set_knowledge k);;
  modify (set_session_insights []).

Definition save_knowledge : M E unit :=
  try_except
    (path ← gets knowledge_file;
     k ← gets knowledge;
     dump_file path k;;
     logging logger INFO "Knowledge base saved successfully")
    (fun e => logging logger ERROR ("Failed to save knowledge: " ++ exc_str e)).

(** The inner loop: the first tag that holds a keyword decides. *)
Fixpoint some_applicable (keywords : list string) (tags : list string) : bool :=
  match tags with
  | [] => false
  | applicable :: rest =>
      if existsb (fun keyword => py_in keyword (py_lower applicable)) keywords
      then true
      else some_applicable keywords rest
  end.

(** The outer loop, with [relevant_strategies] as accumulator. *)
Fixpoint scan_strategies (keywords : list string) (strategies relevant : list entry)
  : list entry :=
  match strategies with
  | [] => relevant
  | strategy :: rest =>
      scan_strategies keywords rest
        (if some_applicable keywords (entry_applicable_to strategy)
         then relevant ++ [strategy] else relevant)
  end.

Definition get_relevant_strategies (problem_description : string) : M E (list entry) :=
  let keywords := py_split (py_lower problem_description) in
  k ← gets knowledge;
  mret (scan_strategies keywords (default [] (k !! "strategies")) []).

Definition add_insight (insight : Insight) : M E unit :=
  t ← now;
  let insight := set_timestamp t insight in
  modify (fun w => set_session_insights (session_insights w ++ [insight]) w);;
  if (0.7 <? i_significance insight)%float then
    k ← gets knowledge;
    (if decide (is_Some (k !! "learned_patterns")) then mret tt
     else modify (set_knowledge (<["learned_patterns" := []]> k)));;
    modify (fun w =>
      set_knowledge
        (<["learned_patterns" :=
             (default [] (knowledge w !! "learned_patterns") ++ [Learned insight])%list]>
           (knowledge w)) w);;
    save_knowledge
  else mret tt.

(** [set(...)] over a generator: elements are hashed as they arrive. *)
Fixpoint py_set (acc : gset strategy_ref) (items : list strategy_ref)
  : result (gset strategy_ref) :=
  match items with
  | [] => Ok acc
  | x :: rest =>
      if ref_hashable x then py_set (acc ∪ {[x]}) rest
      else Raise (PyExc "TypeError" "unhashable type: 'list'")
  end.

Definition get_session_summary : M E Summary :=
  log ← gets session_insights;
  used ← lift (py_set ∅ (filter (fun r => ref_truthy r = true) (map i_strategy log)));
  mret {| total_insights := length log; insights := log; strategies_used := used |}.
End Methods.
End CognitionBase.

(** ** researcher.py *)

Module Researcher.
Section Methods.
Context {E : Type} `{!Environment E}.

Definition logger : string := "ASI-GO.Researcher".

Definition propose_system_prompt : string :=
  "You are an expert problem solver and programmer. 
        Your task is to propose a complete, working solution for the given problem.
        Include clear, well-commented code with error handling.
        Explain your approach and why it should work.".

Definition refine_system_prompt : string :=
  "You are an expert at improving and debugging code based on feedback.".

(** The values of one line [- {strategy['name']}: {strategy['description']}]. *)
Definition strategy_line (strategy : entry) : result (string * string) :=
  match entry_name strategy with
  | Raise e => Raise e
  | Ok name =>
      match entry_description strategy with
      | Raise e => Raise e
      | Ok description => Ok (name, description)
      end
  end.

Definition propose_solution (goal : string) (previous_attempt : option TestResult)
  : M E Proposal :=
  logging logger INFO ("Proposing solution for goal: " ++ goal);;
  strategies ← CognitionBase.get_relevant_strategies goal;
  lines ← lift (for_each strategy_line strategies);
  let prompt := ProposalPrompt goal lines (t_error <$> previous_attempt) in
  try_except
    (response ← llm_query prompt propose_system_prompt;
     names ← lift (for_each entry_name strategies);
     history ← gets proposal_history;
     let proposal :=
       {| p_goal := goal; p_solution := response; p_strategies_used := names;
          p_iteration := Z.of_nat (length history) + 1;
          p_refined_from := None |} in
     modify (fun w => set_proposal_history (proposal_history w ++ [proposal]) w);;
     logging logger INFO "Solution proposal generated successfully";;
     mret proposal)
    (fun e =>
       logging logger ERROR ("Failed to generate proposal: " ++ exc_str e);;
       raise e).

Definition refinement_prompt (proposal : Proposal) (feedback : TestResult) : prompt :=
  RefinementPrompt (p_goal proposal) (p_solution proposal)
    (t_success feedback) (t_error feedback) (t_output feedback)
    (t_issues feedback).

Definition refine_proposal (proposal : Proposal) (feedback : TestResult)
  : M E Proposal :=
  logging logger INFO "Refining proposal based on feedback";;
  let prompt := refinement_prompt proposal feedback in
  try_except
    (response ← llm_query prompt refine_system_prompt;
     let refined_proposal :=
       {| p_goal := p_goal proposal; p_solution := response;
          p_strategies_used := p_strategies_used proposal;
          p_iteration := p_iteration proposal + 1;
          p_refined_from := Some (p_iteration proposal) |} in
     modify (fun w =>
       set_proposal_history (proposal_history w ++ [refined_proposal]) w);;
     mret refined_proposal)
    (fun e =>
       logging logger ERROR ("Failed to refine proposal: " ++ exc_str e);;
       raise e).
End Methods.
End Researcher.

(** ** Python numbers and sets

    [str] of an integer is stdpp's [pretty].  [py_float] is the float of a
    count (exact below 2^53), [py_format_1f] the format [:.1f]: the decimal
    with one digit after the point nearest to the binary64 value, ties to the
    even digit. *)

Definition py_float (n : nat) : float :=
  PrimFloat.of_uint63 (Uint63.of_Z (Z.of_nat n)).

(** The integer nearest to [n * 2 ^ e], ties to even. *)
Definition round_half_even (n e : Z) : Z :=
  if 0 <=? e then n * 2 ^ e
  else
    let d := 2 ^ (- e) in
    let q := n / d in
    let r := n mod d in
    if 2 * r <? d then q
    else if d <? 2 * r then q + 1
    else if Z.even q then q else q + 1.

Definition py_format_1f (x : float) : string :=
  match Prim2SF x with
  | S754_nan => "nan"
  | S754_infinity s => if s then "-inf" else "inf"
  | S754_zero s => if s then "-0.0" else "0.0"
  | S754_finite s m e =>
      let tenths := round_half_even (Z.pos m * 10) e in
      (if s then "-" else "") ++ pretty (tenths / 10) ++ "." ++ pretty (tenths mod 10)
  end.

(** [list(set(items))]: the distinct items in the order in which the set
    happens to hold them. *)
Class SetOrder : Type := {
  set_order : list strategy_ref -> list strategy_ref;
  set_order_distinct : ∀ items, set_order items ≡ₚ remove_dups items
}.

(** [str(r)] for an element of such a list; a list is never one. *)
Definition ref_text (r : strategy_ref) : option string :=
  match r with
  | RefNone => Some "None"
  | RefName s => Some s
  | RefNames _ => None
  end.

(** ** analyst.py *)

Module Analyst.
Section Methods.
Context {E : Type} `{!Environment E}.

Definition logger : string := "ASI-GO.Analyst".

Definition system_prompt : string :=
  "You are an expert at analyzing code execution results and providing insights.
        Focus on identifying what worked, what didn't, and why.
        Provide actionable recommendations for improvement.".

Definition output_preview (test_result : TestResult) : string :=
  match t_output test_result with
  | Some output =>
      if String.eqb output "" then "None"
      else if (500 <? String.length output)%nat
           then py_take 500 output ++ "..."
           else output
  | None => "None"
  end.

(** The insight [_extract_insights] builds. *)
Definition insight_of (analysis : Analysis) (proposal : Proposal) : Insight :=
  {| i_goal := p_goal proposal;
     i_strategy := RefNames (p_strategies_used proposal);
     i_success := a_success analysis;
     i_key_learning :=
       if String.eqb (a_analysis analysis) "" then "No analysis available"
       else py_take 200 (a_analysis analysis);
     i_significance := (if a_success analysis then 0.5 else 0.3)%float;
     i_timestamp := None |}.

Definition _extract_insights (analysis : Analysis) (proposal : Proposal) : M E unit :=
  try_except
    (let insight := insight_of analysis proposal in
     CognitionBase.add_insight insight)
    (fun e => logging logger WARNING ("Failed to extract insights: " ++ exc_str e)).

Definition analysis_prompt (proposal : Proposal) (test_result : TestResult)
    (validation : Validation) : prompt :=
  AnalysisPrompt (p_goal proposal) (p_iteration proposal)
    (p_strategies_used proposal) (t_success test_result)
    (output_preview test_result) (t_error test_result) (t_issues test_result)
    (v_meets_goal validation) (v_confidence validation) (v_notes validation).

Definition analyze_results (proposal : Proposal) (test_result : TestResult)
    (validation : Validation) : M E Analysis :=
  logging logger INFO "Analyzing solution results";;
  let prompt := analysis_prompt proposal test_result validation in
  try_except
    (response ← llm_query prompt system_prompt;
     let analysis :=
       {| a_iteration := p_iteration proposal;
          a_success := t_success test_result;
          a_analysis := response;
          a_test_result := test_result;
          a_validation := validation |} in
     modify (fun w => set_analyses (analyses w ++ [analysis]) w);;
     _extract_insights analysis proposal;;
     mret analysis)
    (fun e =>
       logging logger ERROR ("Failed to analyze results: " ++ exc_str e);;
       let basic_analysis :=
         {| a_iteration := p_iteration proposal;
            a_success := t_success test_result;
            a_analysis :=
              "Analysis failed: " ++ exc_str e ++ ". Test result: "
              ++ (if t_success test_result then "Success" else "Failed");
            a_test_result := test_result;
            a_validation := validation |} in
       modify (fun w => set_analyses (analyses w ++ [basic_analysis]) w);;
       mret basic_analysis).

Definition recommend_next_action : M E string :=
  history ← gets analyses;
  match last history with
  | None => mret "No data available. Start with a new proposal."
  | Some last_analysis =>
      if a_success last_analysis && v_meets_goal (a_validation last_analysis) then
        mret "Goal achieved! Consider optimizing the solution or trying a more complex goal."
      else if a_success last_analysis then
        mret "Solution runs but doesn't fully meet the goal. Refine the logic."
      else if (5 <=? length history)%nat then
        mret "Multiple attempts failed. Consider revising the goal or approach fundamentally."
      else
        mret "Refine the current approach based on the error feedback."
  end.

Definition report_head (total successful : nat) : string :=
  "
ASI-GO Analysis Summary
======================
Total Attempts: " ++ pretty total ++ "
Successful: " ++ pretty successful ++ "
Success Rate: "
  ++ py_format_1f (py_float successful / py_float total * 100)%float ++ "%

Iterations:
".

(** The error message of a failed analysis, cut after 50 characters. *)
Definition error_excerpt (error_msg : string) : string :=
  if (50 <? String.length error_msg)%nat then py_take 50 error_msg ++ "..."
  else error_msg.

(** What the loop adds to the report for one analysis.  The two marks are
    outside the range of code points below 256 and stand as their UTF-8
    bytes. *)
Definition iteration_line (analysis : Analysis) : string :=
  "
  Iteration " ++ pretty (a_iteration analysis) ++ ": "
  ++ (if a_success analysis then "✓ Success" else "✗ Failed")
  ++ (if negb (a_success analysis) then
        match t_error (a_test_result analysis) with
        | Some error_msg =>
            if String.eqb error_msg "" then "" else " - " ++ error_excerpt error_msg
        | None => ""
        end
      else "").

(** What the report gains from a session summary. *)
Definition insights_block `{!SetOrder} (session_summary : Summary) : string :=
  if (0 <? total_insights session_summary)%nat then
    let used :=
      set_order (filter (fun r => ref_truthy r = true)
                   (map i_strategy (insights session_summary))) in
    "

Insights Generated: " ++ pretty (total_insights session_summary)
    ++ match used with
       | [] => ""
       | _ => "
Strategies Used: "
              ++ String.concat ", "
                   (omap ref_text (filter (fun r => ref_truthy r = true) used))
       end
  else "".

Definition generate_summary_report `{!SetOrder} : M E string :=
  history ← gets analyses;
  match history with
  | [] => mret "No analyses performed yet."
  | _ =>
      let successful := length (filter (fun a => a_success a = true) history) in
      let total := length history in
      let report :=
        fold_left (fun report analysis => (report ++ iteration_line analysis)%string)
          history (report_head total successful) in
      try_except
        (session_summary ← CognitionBase.get_session_summary;
         mret (report ++ insights_block session_summary)%string)
        (fun e =>
           logging logger WARNING ("Failed to add session summary: " ++ exc_str e);;
           mret report)
  end.
End Methods.
End Analyst.

(** ** A scripted environment

    An environment whose language model answers from a list of prepared
    replies, whose clock is fixed and whose knowledge file is a value:
    absent, unreadable, or holding a catalogue. *)

Module Scripted.
#[global] Instance set_order : SetOrder :=
  {| set_order := remove_dups; set_order_distinct := fun _ => reflexivity _ |}.

Inductive file : Type :=
| Absent
| Corrupt (e : exception)
| Holds (k : Knowledge).

Record t : Type := {
  replies : list (result string);
  disk : file;
  writable : bool
}.

Definition exhausted : exception := PyExc "Exception" "no reply".
Definition read_only : exception := PyExc "PermissionError" "Permission denied".
Definition missing : exception := PyExc "FileNotFoundError" "No such file or directory".

#[global] Instance environment : Environment t := {
  query _ _ e :=
    match replies e with
    | [] => (Raise exhausted, e)
    | r :: rest => (r, {| replies := rest; disk := disk e; writable := writable e |})
    end;
  now_isoformat e := ("2025-01-01T00:00:00", e);
  path_exists _ e := match disk e with Absent => false | _ => true end;
  json_load _ e :=
    match disk e with
    | Absent => Raise missing
    | Corrupt x => Raise x
    | Holds k => Ok k
    end;
  json_dump _ k e :=
    if writable e
    then (Ok tt, {| replies := replies e; disk := Holds k; writable := true |})
    else (Raise read_only, e)
}.

(** A world before any constructor has run. *)
Definition blank (e : t) : World t :=
  {| env := e; knowledge_file := ""; knowledge := ∅; session_insights := [];
     proposal_history := []; analyses := []; trace := [] |}.

(** The world after [CognitionBase()], [Researcher(llm, cb)] and
    [Analyst(llm, cb)]. *)
Definition start (e : t) : World t := (CognitionBase.init (blank e)).2.
End Scripted.

(** * Vocabulary of the properties *)

(** A strategy matches when one of its tags holds one of the keywords. *)
Definition matches (keywords : list string) (s : entry) : Prop :=
  ∃ tag keyword,
    tag ∈ entry_applicable_to s ∧ keyword ∈ keywords
    ∧ py_in keyword (py_lower tag) = true.

(** The strategies [get_relevant_strategies] returns for a goal. *)
Definition relevant {E} (goal : string) (w : World E) : list entry :=
  filter (λ s, CognitionBase.some_applicable (py_split (py_lower goal))
                 (entry_applicable_to s) = true)
    (default [] (knowledge w !! "strategies")).

(** The records of the ["learned_patterns"] category; none when the category
    is absent. *)
Definition learned_patterns (k : Knowledge) : list entry :=
  default [] (k !! "learned_patterns").

(** The exception [set] raises on a list. *)
Definition unhashable_list : exception := PyExc "TypeError" "unhashable type: 'list'".

(** The analysis [analyze_results] builds from a reply of the language model,
    and the one it builds when the call raised. *)
Definition analysis_from (p : Proposal) (t : TestResult) (v : Validation)
    (reply : result string) : Analysis :=
  {| a_iteration := p_iteration p;
     a_success := t_success t;
     a_analysis :=
       match reply with
       | Ok response => response
       | Raise e =>
           ("Analysis failed: " ++ exc_str e ++ ". Test result: "
            ++ (if t_success t then "Success" else "Failed"))%string
       end;
     a_test_result := t;
     a_validation := v |}.

(** A sequence of [analyze_results] calls, one after the other. *)
Fixpoint analyze_each {E} `{!Environment E}
    (calls : list (Proposal * TestResult * Validation)) (w : World E) : World E :=
  match calls with
  | [] => w
  | (p, t, v) :: rest => analyze_each rest (Analyst.analyze_results p t v w).2
  end.

(** How many of these calls get a reply from the language model. *)
Fixpoint generator_successes {E} `{!Environment E}
    (calls : list (Proposal * TestResult * Validation)) (w : World E) : nat :=
  match calls with
  | [] => 0
  | (p, t, v) :: rest =>
      (if is_ok (query (Analyst.analysis_prompt p t v) Analyst.system_prompt (env w)).1
       then 1 else 0)
      + generator_successes rest (Analyst.analyze_results p t v w).2
  end.

(** The count [get_session_summary] reports. *)
Definition reported_insights {E} `{!Environment E} (w : World E) : result nat :=
  match (CognitionBase.get_session_summary w).1 with
  | Ok s => Ok (total_insights s)
  | Raise e => Raise e
  end.

(** The name and description lines, and the names, of retrieved strategies. *)
Definition strategy_lines (l : list entry) : list (string * string) :=
  omap (λ e, match e with
             | Strat s => Some (s_name s, s_description s)
             | _ => None
             end) l.

Definition strategy_names (l : list entry) : list string :=
  omap (λ e, match e with Strat s => Some (s_name s) | _ => None end) l.

(** The prompt [propose_solution] sends. *)
Definition proposal_prompt {E} (goal : string) (previous_attempt : option TestResult)
    (w : World E) : prompt :=
  ProposalPrompt goal (strategy_lines (relevant goal w)) (t_error <$> previous_attempt).

(** The proposal [propose_solution] builds from a reply. *)
Definition proposal_from {E} (goal response : string) (w : World E) : Proposal :=
  {| p_goal := goal; p_solution := response;
     p_strategies_used := strategy_names (relevant goal w);
     p_iteration := Z.of_nat (length (proposal_history w)) + 1;
     p_refined_from := None |}.

(** The proposal [refine_proposal] builds from a reply. *)
Definition refined_from (proposal : Proposal) (response : string) : Proposal :=
  {| p_goal := p_goal proposal; p_solution := response;
     p_strategies_used := p_strategies_used proposal;
     p_iteration := p_iteration proposal + 1;
     p_refined_from := Some (p_iteration proposal) |}.

(** A string without any character that is not whitespace. *)
Fixpoint all_space (s : string) : bool :=
  match s with
  | EmptyString => true
  | String c rest => py_isspace c && all_space rest
  end.

(** The report before the session summary is added: the head and one
    line for each analysis. *)
Definition report_body (history : list Analysis) : string :=
  fold_left (fun report analysis => (report ++ Analyst.iteration_line analysis)%string)
    history
    (Analyst.report_head (length history)
       (length (filter (fun a => a_success a = true) history))).

(** ** Sessions

    A session is a sequence of calls of the public methods, each on the
    world the previous one left. *)
Inductive call : Type :=
| Propose (goal : string) (previous_attempt : option TestResult)
| Refine (proposal : Proposal) (feedback : TestResult)
| Analyze (proposal : Proposal) (test_result : TestResult) (validation : Validation)
| Recommend
| Report
| Retrieve (problem_description : string)
| Summarize
| AddInsight (insight : Insight)
| Save.

Definition perform {E} `{!Environment E} `{!SetOrder} (c : call) (w : World E)
  : World E :=
  match c with
  | Propose goal previous_attempt =>
      (Researcher.propose_solution goal previous_attempt w).2
  | Refine proposal feedback => (Researcher.refine_proposal proposal feedback w).2
  | Analyze proposal test_result validation =>
      (Analyst.analyze_results proposal test_result validation w).2
  | Recommend => (Analyst.recommend_next_action w).2
  | Report => (Analyst.generate_summary_report w).2
  | Retrieve problem_description =>
      (CognitionBase.get_relevant_strategies problem_description w).2
  | Summarize => (CognitionBase.get_session_summary w).2
  | AddInsight insight => (CognitionBase.add_insight insight w).2
  | Save => (CognitionBase.save_knowledge w).2
  end.

Definition session {E} `{!Environment E} `{!SetOrder} (calls : list call)
    (w : World E) : World E :=
  fold_left (fun w c => perform c w) calls w.

(** The calls of the proposal and analysis loop: every call but a direct
    [add_insight] or [save_knowledge]. *)
Definition loop_call (c : call) : bool :=
  match c with
  | AddInsight _ | Save => false
  | _ => true
  end.

(** The catalogues written to the knowledge file, in order. *)
Definition dumps (t : list event) : list Knowledge :=
  omap (fun ev => match ev with Dump _ k => Some k | _ => None end) t.

(** [w'] continues [w]: the logs and histories of [w] are the beginning of
    those of [w'], and the file name and the strategies are the same. *)
Record continues {E} (w w' : World E) : Prop := {
  same_file : knowledge_file w' = knowledge_file w;
  same_strategies : knowledge w' !! "strategies" = knowledge w !! "strategies";
  insights_kept : session_insights w `prefix_of` session_insights w';
  proposals_kept : proposal_history w `prefix_of` proposal_history w';
  analyses_kept : analyses w `prefix_of` analyses w';
  trace_kept : trace w `prefix_of` trace w'
}.

(** A history in which a proposal that is not a refinement carries its
    position, counted from one, as iteration, and a refinement the iteration
    after the one it refines. *)
Definition numbered (history : list Proposal) : Prop :=
  ∀ i p, history !! i = Some p →
    match p_refined_from p with
    | None => p_iteration p = Z.of_nat i + 1
    | Some from => p_iteration p = from + 1
    end.

(** ** Restarts

    A store is faithful when a catalogue that was written without error is
    there afterwards and loads as it was written. *)
Definition faithful_store {E} `{!Environment E} : Prop :=
  ∀ path k e e',
    json_dump path k e = (Ok tt, e') →
    path_exists path e' = true ∧ json_load path e' = Ok k.

(** A world in which no constructor has run yet. *)
Definition new_world {E} (e : E) : World E :=
  {| env := e; knowledge_file := ""; knowledge := ∅; session_insights := [];
     proposal_history := []; analyses := []; trace := [] |}.

(** The process ends and a new one constructs its [CognitionBase] in the
    environment the old one left. *)
Definition restart {E} `{!Environment E} (w : World E) : World E :=
  (CognitionBase.init (new_world (env w))).2.

(** * Concrete inputs *)

(** A scripted environment with no knowledge file, and one whose knowledge
    file does not parse. *)
Definition no_file (replies : list (result string)) : Scripted.t :=
  {| Scripted.replies := replies; Scripted.disk := Scripted.Absent;
     Scripted.writable := true |}.

Definition unreadable_file : Scripted.t :=
  {| Scripted.replies := [];
     Scripted.disk := Scripted.Corrupt (PyExc "JSONDecodeError" "Expecting value");
     Scripted.writable := true |}.

(** A failure of the language model. *)
Definition timeout : result string := Raise (PyExc "Exception" "Request timed out").

(** A proposal that used no strategy, and one that used two. *)
Definition sum_proposal : Proposal :=
  {| p_goal := "sum a list"; p_solution := "print(sum(xs))";
     p_strategies_used := []; p_iteration := 1; p_refined_from := None |}.

Definition search_proposal : Proposal :=
  {| p_goal := "optimize this search algorithm";
     p_solution := "def search(xs): ...";
     p_strategies_used := ["Divide and Conquer"; "Iterative Refinement"];
     p_iteration := 1; p_refined_from := None |}.

Definition refined_search_proposal : Proposal :=
  {| p_goal := "optimize this search algorithm";
     p_solution := "def search(xs): return sorted(xs)";
     p_strategies_used := ["Divide and Conquer"; "Iterative Refinement"];
     p_iteration := 2; p_refined_from := Some 1 |}.

Definition passing_test : TestResult :=
  {| t_success := true; t_output := Some "6"; t_error := None; t_issues := [] |}.

Definition failing_test : TestResult :=
  {| t_success := false; t_output := None;
     t_error := Some "NameError: name 'xs' is not defined"; t_issues := [] |}.

Definition goal_met : Validation :=
  {| v_meets_goal := true; v_confidence := 0.9; v_notes := [] |}.

Definition goal_missed : Validation :=
  {| v_meets_goal := false; v_confidence := 0.1; v_notes := [] |}.

(** A test result whose output has 600 characters. *)
Definition long_output : string := string_of_list_ascii (repeat "x"%char 600).

Definition verbose_test : TestResult :=
  {| t_success := true; t_output := Some long_output; t_error := None;
     t_issues := [] |}.

(** A loop of the search scenario: proposal, analysis, report,
    recommendation. *)
Definition search_loop : list call :=
  [Propose "optimize this search algorithm" None;
   Analyze search_proposal passing_test goal_met;
   Report; Recommend].

(** A proposal, its refinement, and a second refinement of the same
    proposal. *)
Definition refine_twice : list call :=
  [Propose "optimize this search algorithm" None;
   Refine search_proposal failing_test;
   Refine search_proposal failing_test].

(** Insights that refer to their strategy by name. *)
Definition named_insights : list Insight :=
  [ {| i_goal := "g"; i_strategy := RefName "Divide and Conquer";
       i_success := true; i_key_learning := "k";
       i_significance := 0.5; i_timestamp := None |};
    {| i_goal := "g"; i_strategy := RefNone;
       i_success := false; i_key_learning := "k";
       i_significance := 0.3; i_timestamp := None |};
    {| i_goal := "h"; i_strategy := RefName "Divide and Conquer";
       i_success := false; i_key_learning := "k";
       i_significance := 0.3; i_timestamp := None |} ].

(** A world whose knowledge file cannot be written. *)
Definition read_only_world : World Scripted.t :=
  Scripted.start
    {| Scripted.replies := []; Scripted.disk := Scripted.Absent;
       Scripted.writable := false |}.

(** An insight above the significance threshold, and one below. *)
Definition notable_insight : Insight :=
  {| i_goal := "sum a list"; i_strategy := RefNone; i_success := true;
     i_key_learning := "Built-ins beat loops"; i_significance := 0.9;
     i_timestamp := None |}.

Definition routine_insight : Insight :=
  {| i_goal := "sum a list"; i_strategy := RefNone; i_success := true;
     i_key_learning := "It ran"; i_significance := 0.5; i_timestamp := None |}.

(** One analysis during which the language model raises. *)
Definition session_generator_down : World Scripted.t :=
  analyze_each [(sum_proposal, passing_test, goal_met)]
    (Scripted.start (no_file [timeout])).

(** Two analyses; the language model replies to the first only. *)
Definition two_analyses : list (Proposal * TestResult * Validation) :=
  [(sum_proposal, failing_test, goal_missed); (sum_proposal, passing_test, goal_met)].

(** A proposal for the search scenario, then its analysis; the language
    model replies both times. *)
Definition session_search_analysed : World Scripted.t :=
  let w0 := Scripted.start (no_file [Ok "def search(xs): ..."; Ok "The search works."]) in
  match Researcher.propose_solution "optimize this search algorithm" None w0 with
  | (Ok proposal, w1) => (Analyst.analyze_results proposal passing_test goal_met w1).2
  | (Raise _, w1) => w1
  end.

(** The language model replies to the proposal and to the refinement. *)
Definition two_replies : World Scripted.t :=
  Scripted.start (no_file [Ok "def search(xs): ..."; Ok "def search(xs): return sorted(xs)"]).

(** The language model raises once, then replies. *)
Definition down_then_up : World Scripted.t :=
  Scripted.start (no_file [timeout; Ok "def search(xs): ..."]).

(** * Properties *)

(** Unfolds the monad down to functions on worlds. *)
Ltac run :=
  repeat (progress (cbv beta delta
    [mbind mret M_bind M_ret raise try_except lift gets modify logging
     llm_query now exists_file load_file dump_file] in *; cbn beta iota zeta in *)).

Section Retrieval.
Context {E : Type} `{!Environment E}.

Lemma some_applicable_spec keywords tags :
  CognitionBase.some_applicable keywords tags = true
  ↔ ∃ tag keyword, tag ∈ tags ∧ keyword ∈ keywords
                   ∧ py_in keyword (py_lower tag) = true.
Proof.
  induction tags as [|tag tags IH]; simpl.
  - split; [discriminate|]. intros (t & k & Ht & _). by apply elem_of_nil in Ht.
  - destruct (existsb _ keywords) eqn:Hex.
    + split; [intros _|done].
      apply existsb_exists in Hex as (k & Hk & Hin).
      exists tag, k. split_and!; [left | by apply list_elem_of_In | done].
    + rewrite IH. split.
      * intros (t & k & Ht & Hk & Hin). exists t, k. split_and!; [by right|done..].
      * intros (t & k & Ht & Hk & Hin).
        apply elem_of_cons in Ht as [->|Ht]; [|by exists t, k].
        assert (existsb (λ keyword, py_in keyword (py_lower tag)) keywords = true)
          as Habs; [|congruence].
        apply existsb_exists. exists k. split; [by apply list_elem_of_In|done].
Qed.

Lemma some_applicable_matches keywords s :
  CognitionBase.some_applicable keywords (entry_applicable_to s) = true
  ↔ matches keywords s.
Proof. apply some_applicable_spec. Qed.

Lemma scan_strategies_filter keywords strategies relevant :
  CognitionBase.scan_strategies keywords strategies relevant
  = relevant
    ++ filter (λ s, CognitionBase.some_applicable keywords
                      (entry_applicable_to s) = true) strategies.
Proof.
  revert relevant. induction strategies as [|s rest IH]; intros relevant; simpl.
  - by rewrite app_nil_r.
  - rewrite IH, filter_cons. destruct (CognitionBase.some_applicable _ _) eqn:Hs.
    + rewrite decide_True by done. by rewrite <- app_assoc.
    + rewrite decide_False by done. done.
Qed.

Lemma get_relevant_strategies_run d (w : World E) :
  CognitionBase.get_relevant_strategies d w
  = (Ok (filter (λ s, CognitionBase.some_applicable (py_split (py_lower d))
                        (entry_applicable_to s) = true)
           (default [] (knowledge w !! "strategies"))), w).
Proof.
  unfold CognitionBase.get_relevant_strategies. run.
  by rewrite scan_strategies_filter.
Qed.

(** Every retrieved record is a strategy: it has a tag. *)
Lemma relevant_is_strategy d (w : World E) l :
  (CognitionBase.get_relevant_strategies d w).1 = Ok l →
  Forall (λ e, ∃ s, e = Strat s) l.
Proof.
  rewrite get_relevant_strategies_run. simpl. intros [= <-].
  apply Forall_forall. intros e [He _]%list_elem_of_filter.
  destruct e; simpl in He; try discriminate. by eexists.
Qed.
End Retrieval.

Section RetrievalClaims.
Context {E : Type} `{!Environment E}.

(** C7. For every description and catalogue, [get_relevant_strategies]
    returns a list and never raises, and leaves the world as it found it,
    so that a second call with the same description returns the same list.
    The list is a sublist of the catalogue's strategies: catalogue order is
    kept and each record is taken at most once (so a catalogue without
    repeated records or names yields a result without repeated records or
    names).  It holds exactly the records one of whose tags, lowercased,
    contains a keyword of the lowercased description, and it is empty when
    no record matches. *)
Theorem get_relevant_strategies_deterministic (d : string) (w : World E) :
  let catalogue := default [] (knowledge w !! "strategies") in
  let keywords := py_split (py_lower d) in
  ∃ found : list entry,
    CognitionBase.get_relevant_strategies d w = (Ok found, w)
    ∧ (CognitionBase.get_relevant_strategies d w).2 = w
    ∧ CognitionBase.get_relevant_strategies d
        (CognitionBase.get_relevant_strategies d w).2 = (Ok found, w)
    ∧ found `sublist_of` catalogue
    ∧ (NoDup catalogue → NoDup found)
    ∧ (NoDup (entry_name <$> catalogue) → NoDup (entry_name <$> found))
    ∧ (∀ s, s ∈ found ↔ s ∈ catalogue ∧ matches keywords s)
    ∧ ((∀ s, s ∈ catalogue → ¬ matches keywords s) → found = []).
Proof.
  intros catalogue keywords.
  pose proof (get_relevant_strategies_run d w) as Hrun.
  fold catalogue keywords in Hrun.
  set (found := filter _ catalogue) in Hrun.
  assert (found `sublist_of` catalogue) as Hsub by apply sublist_filter.
  exists found. rewrite Hrun. simpl. rewrite Hrun.
  split_and!; try done.
  - intros Hnd. by eapply sublist_NoDup.
  - intros Hnd. eapply sublist_NoDup; [done|]. by apply fmap_sublist.
  - intros s. unfold found. rewrite list_elem_of_filter.
    rewrite some_applicable_matches. tauto.
  - intros Hnone. apply elem_of_nil_inv. intros s.
    unfold found. rewrite list_elem_of_filter, some_applicable_matches.
    intros [Hm Hs]. by apply (Hnone s).
Qed.
End RetrievalClaims.

(** ** The seed catalogue *)

Lemma seed_strategies :
  CognitionBase.seed !! "strategies"
  = Some [Strat CognitionBase.divide_and_conquer;
          Strat CognitionBase.iterative_refinement;
          Strat CognitionBase.pattern_recognition].
Proof. reflexivity. Qed.

Lemma start_no_file replies :
  knowledge (Scripted.start (no_file replies)) = CognitionBase.seed.
Proof. reflexivity. Qed.

Section SeedClaims.
Context {E : Type} `{!Environment E}.

Lemma search_scenario_run (w : World E) :
  CognitionBase.get_relevant_strategies "optimize this search algorithm"
    (set_knowledge CognitionBase.seed w)
  = (Ok [Strat CognitionBase.divide_and_conquer;
         Strat CognitionBase.iterative_refinement],
     set_knowledge CognitionBase.seed w).
Proof. rewrite get_relevant_strategies_run. simpl knowledge. reflexivity. Qed.

(** C8. When the knowledge file does not exist, or exists and loading it
    raises, [_load_knowledge] returns the seed catalogue and raises nothing.
    The strategies of the seed are exactly three, named "Divide and
    Conquer", "Iterative Refinement" and "Pattern Recognition". *)
Theorem load_knowledge_falls_back (w : World E) :
  path_exists (knowledge_file w) (env w) = false
  ∨ (∃ e, json_load (knowledge_file w) (env w) = Raise e) →
  (CognitionBase._load_knowledge w).1 = Ok CognitionBase.seed
  ∧ ∃ a b c,
      CognitionBase.seed !! "strategies" = Some [Strat a; Strat b; Strat c]
      ∧ s_name a = "Divide and Conquer"
      ∧ s_name b = "Iterative Refinement"
      ∧ s_name c = "Pattern Recognition".
Proof.
  intros Hfile. split.
  - unfold CognitionBase._load_knowledge. run.
    destruct (path_exists _ _) eqn:Hex; [|done].
    destruct Hfile as [?|[e He]]; [done|].
    run. by rewrite He.
  - by eexists _, _, _.
Qed.

(** C4, as the code has it.  Against the seed catalogue, the description
    "optimize this search algorithm" retrieves exactly two strategies, in
    catalogue order: "Divide and Conquer", whose tag "search" is a keyword,
    and "Iterative Refinement", whose tag "algorithms" contains the keyword
    "algorithm".  "Pattern Recognition" is not retrieved. *)
Theorem search_scenario_retrieves_two (w : World E) :
  (CognitionBase.get_relevant_strategies "optimize this search algorithm"
     (set_knowledge CognitionBase.seed w)).1
  = Ok [Strat CognitionBase.divide_and_conquer;
        Strat CognitionBase.iterative_refinement].
Proof. by rewrite search_scenario_run. Qed.
End SeedClaims.

(** The fallback, once with the file absent and once with a file that does
    not parse. *)
Lemma load_knowledge_falls_back_witness :
  (path_exists "" (no_file []) = false
   ∧ (CognitionBase._load_knowledge (Scripted.blank (no_file []))).1
     = Ok CognitionBase.seed)
  ∧ (path_exists "" unreadable_file = true
     ∧ json_load "" unreadable_file = Raise (PyExc "JSONDecodeError" "Expecting value")
     ∧ (CognitionBase._load_knowledge (Scripted.blank unreadable_file)).1
       = Ok CognitionBase.seed).
Proof.
  split; [split; [reflexivity|] | split; [reflexivity | split; [reflexivity|]]].
  - apply (load_knowledge_falls_back (Scripted.blank (no_file []))).
    left. reflexivity.
  - apply (load_knowledge_falls_back (Scripted.blank unreadable_file)).
    right. eexists. reflexivity.
Defined.

(** C4, as the spec has it: the scenario does not retrieve exactly one
    strategy. *)
Lemma search_scenario_not_one :
  ¬ ∃ s, (CognitionBase.get_relevant_strategies "optimize this search algorithm"
            (Scripted.start (no_file []))).1 = Ok [s].
Proof.
  intros [s Hs].
  change (Scripted.start (no_file []))
    with (set_knowledge CognitionBase.seed (Scripted.start (no_file []))) in Hs.
  rewrite search_scenario_run in Hs. discriminate Hs.
Qed.

(** ** The significance gate *)

(** On binary64 values, [x <= y] excludes [y < x]. *)
Lemma SFleb_not_SFltb (x y : spec_float) :
  SFleb x y = true → SFltb y x = false.
Proof.
  unfold SFleb, SFltb, SFcompare.
  destruct x as [sx|sx| |sx mx ex], y as [sy|sy| |sy my ey];
    try destruct sx; try destruct sy; try done.
  - rewrite (Z.compare_antisym ey ex).
    destruct (ey ?= ex)%Z; simpl; try done.
    rewrite !Pos.compare_cont_spec. simpl.
    rewrite (Pos.compare_antisym my mx). by destruct (my ?= mx)%positive.
  - rewrite (Z.compare_antisym ey ex).
    destruct (ey ?= ex)%Z; simpl; try done.
    rewrite !Pos.compare_cont_spec. simpl.
    rewrite (Pos.compare_antisym my mx). by destruct (my ?= mx)%positive.
Qed.

Lemma leb_not_ltb (x y : float) :
  (x <=? y)%float = true → (y <? x)%float = false.
Proof. rewrite leb_spec, ltb_spec. apply SFleb_not_SFltb. Qed.

Section Gate.
Context {E : Type} `{!Environment E}.

Lemma save_knowledge_run (w : World E) :
  ∃ outcome,
    CognitionBase.save_knowledge w
    = (Ok tt,
       emit outcome
         (set_env (json_dump (knowledge_file w) (knowledge w) (env w)).2
            (emit (Dump (knowledge_file w) (knowledge w)) w))).
Proof.
  unfold CognitionBase.save_knowledge. run.
  destruct (json_dump _ _ _) as [[[]|e] e']; run; by eexists.
Qed.

(** [add_insight] never raises. *)
Lemma add_insight_ok (insight : Insight) (w : World E) :
  (CognitionBase.add_insight insight w).1 = Ok tt.
Proof.
  unfold CognitionBase.add_insight. run.
  destruct (now_isoformat (env w)) as [t e]. run.
  destruct (0.7 <? _)%float; [|done].
  destruct (decide _); run; match goal with
    |- (CognitionBase.save_knowledge ?w').1 = _ =>
      destruct (save_knowledge_run w') as [o ->] end; done.
Qed.

Lemma add_insight_session (insight : Insight) (w : World E) :
  session_insights (CognitionBase.add_insight insight w).2
  = session_insights w ++ [set_timestamp (now_isoformat (env w)).1 insight].
Proof.
  unfold CognitionBase.add_insight. run.
  destruct (now_isoformat (env w)) as [t e]. run.
  destruct (0.7 <? _)%float; [|done].
  destruct (decide _); run; match goal with
    |- session_insights (CognitionBase.save_knowledge ?w').2 = _ =>
      destruct (save_knowledge_run w') as [o ->] end; done.
Qed.

Lemma add_insight_analyses (insight : Insight) (w : World E) :
  analyses (CognitionBase.add_insight insight w).2 = analyses w.
Proof.
  unfold CognitionBase.add_insight. run.
  destruct (now_isoformat (env w)) as [t e]. run.
  destruct (0.7 <? _)%float; [|done].
  destruct (decide _); run; match goal with
    |- analyses (CognitionBase.save_knowledge ?w').2 = _ =>
      destruct (save_knowledge_run w') as [o ->] end; done.
Qed.
End Gate.

Section GateClaim.
Context {E : Type} `{!Environment E}.

(** C1. [add_insight] returns normally and appends the insight, stamped
    with the current time, to the session insights, whatever its
    significance.  When the significance is greater than 0.7, the
    "learned_patterns" category exists afterwards and holds its former
    records followed by the insight (one record more; none when the
    category was absent), the other categories are untouched, and the
    catalogue as updated is written to the knowledge file.  When the
    significance is at most 0.7, the catalogue is unchanged and nothing is
    written. *)
Theorem add_insight_gate (insight : Insight) (w : World E) :
  let stamped := set_timestamp (now_isoformat (env w)).1 insight in
  let w' := (CognitionBase.add_insight insight w).2 in
  (CognitionBase.add_insight insight w).1 = Ok tt
  ∧ session_insights w' = session_insights w ++ [stamped]
  ∧ ((0.7 <? i_significance insight)%float = true →
       is_Some (knowledge w' !! "learned_patterns")
       ∧ learned_patterns (knowledge w')
         = learned_patterns (knowledge w) ++ [Learned stamped]
       ∧ length (learned_patterns (knowledge w'))
         = S (length (learned_patterns (knowledge w)))
       ∧ (∀ category, category ≠ "learned_patterns" →
            knowledge w' !! category = knowledge w !! category)
       ∧ ∃ outcome,
           trace w'
           = trace w ++ [Dump (knowledge_file w) (knowledge w'); outcome])
  ∧ ((i_significance insight <=? 0.7)%float = true →
       knowledge w' = knowledge w ∧ trace w' = trace w).
Proof.
  intros stamped w'.
  split; [apply add_insight_ok|]. split; [apply add_insight_session|].
  subst stamped w'. unfold CognitionBase.add_insight, learned_patterns. run.
  destruct (now_isoformat (env w)) as [t e]. run.
  change (i_significance (set_timestamp t insight)) with (i_significance insight).
  split.
  - intros ->.
    destruct (decide _) as [Hsome|Hnone]; run;
      match goal with
      | |- context [CognitionBase.save_knowledge ?w1] =>
          destruct (save_knowledge_run w1) as [o ->]
      end; simpl in *.
    + destruct Hsome as [old Hold]. rewrite Hold. simpl.
      rewrite lookup_insert_eq. simpl.
      split_and!; [done|done|rewrite length_app; simpl; lia|
                   |exists o; by rewrite <- app_assoc].
      intros c Hc. by rewrite lookup_insert_ne.
    + apply eq_None_not_Some in Hnone. rewrite Hnone. simpl.
      rewrite !lookup_insert_eq. simpl. rewrite insert_insert_eq.
      split_and!; [done|done|done| |exists o; by rewrite <- app_assoc].
      intros c Hc. by rewrite lookup_insert_ne.
  - intros Hle. by rewrite (leb_not_ltb _ _ Hle).
Qed.
End GateClaim.

(** ** Analysis *)

Section AnalystRuns.
Context {E : Type} `{!Environment E}.

(** Building and submitting an insight never raises, so the handler of
    [_extract_insights] never runs. *)
Lemma extract_insights_run (a : Analysis) (p : Proposal) (w : World E) :
  Analyst._extract_insights a p w
  = (Ok tt, (CognitionBase.add_insight (Analyst.insight_of a p) w).2).
Proof.
  unfold Analyst._extract_insights. run.
  pose proof (add_insight_ok (Analyst.insight_of a p) w) as Hok.
  destruct (CognitionBase.add_insight _ w) as [[[]|e] w']; simpl in *;
    [done|discriminate].
Qed.

Lemma analyze_results_run (p : Proposal) (t : TestResult) (v : Validation)
    (w : World E) :
  let reply := (query (Analyst.analysis_prompt p t v) Analyst.system_prompt (env w)).1 in
  let w' := (Analyst.analyze_results p t v w).2 in
  (Analyst.analyze_results p t v w).1 = Ok (analysis_from p t v reply)
  ∧ analyses w' = analyses w ++ [analysis_from p t v reply]
  ∧ session_insights w'
    = session_insights w
      ++ match reply with
         | Ok _ =>
             [set_timestamp
                (now_isoformat
                   (query (Analyst.analysis_prompt p t v) Analyst.system_prompt
                      (env w)).2).1
                (Analyst.insight_of (analysis_from p t v reply) p)]
         | Raise _ => []
         end.
Proof.
  intros reply w'. subst reply w'.
  unfold Analyst.analyze_results. run.
  destruct (query _ _ _) as [[response|e] e']; run.
  - rewrite extract_insights_run. simpl.
    rewrite add_insight_analyses, add_insight_session. done.
  - by rewrite app_nil_r.
Qed.
End AnalystRuns.

Section AnalystSequences.
Context {E : Type} `{!Environment E}.

Lemma analyze_each_counts
    (calls : list (Proposal * TestResult * Validation)) (w : World E) :
  length (session_insights (analyze_each calls w))
  = (length (session_insights w) + generator_successes calls w)%nat
  ∧ length (analyses (analyze_each calls w))
    = (length (analyses w) + length calls)%nat.
Proof.
  revert w. induction calls as [|[[p t] v] rest IH]; intros w; simpl.
  - lia.
  - destruct (IH (Analyst.analyze_results p t v w).2) as [-> ->].
    destruct (analyze_results_run p t v w) as (_ & -> & ->).
    rewrite !length_app. simpl.
    destruct (query _ _ _).1; simpl; lia.
Qed.

Lemma analyze_each_snoc calls p t v (w : World E) :
  analyze_each (calls ++ [(p, t, v)]) w
  = (Analyst.analyze_results p t v (analyze_each calls w)).2.
Proof.
  revert w. induction calls as [|[[p' t'] v'] rest IH]; intros w; simpl; [done|].
  apply IH.
Qed.

(** The last analysis of a sequence of calls is that of the last call. *)
Lemma analyze_each_last calls p t v (w : World E) :
  ∃ a, last (analyses (analyze_each (calls ++ [(p, t, v)]) w)) = Some a
       ∧ a_success a = t_success t ∧ a_validation a = v.
Proof.
  rewrite analyze_each_snoc.
  destruct (analyze_results_run p t v (analyze_each calls w)) as (_ & -> & _).
  eexists. rewrite last_snoc. done.
Qed.
End AnalystSequences.

Section AnalystClaims.
Context {E : Type} `{!Environment E}.

(** C5. [analyze_results] returns an analysis and never raises.  The
    analysis carries the proposal's iteration, the test result's success
    flag, the test result and the validation, whether or not the language
    model replied, and is appended to the analysis history.  When the
    call to the language model raised, its text is "Analysis failed: ",
    the message of the exception, ". Test result: " and "Success" or
    "Failed"; otherwise its text is the reply. *)
Theorem analyze_results_never_raises (p : Proposal) (t : TestResult)
    (v : Validation) (w : World E) :
  let reply := (query (Analyst.analysis_prompt p t v) Analyst.system_prompt (env w)).1 in
  let w' := (Analyst.analyze_results p t v w).2 in
  ∃ a,
    (Analyst.analyze_results p t v w).1 = Ok a
    ∧ a_iteration a = p_iteration p
    ∧ a_success a = t_success t
    ∧ a_test_result a = t
    ∧ a_validation a = v
    ∧ analyses w' = analyses w ++ [a]
    ∧ (∀ e, reply = Raise e →
         a_analysis a
         = ("Analysis failed: " ++ exc_str e ++ ". Test result: "
            ++ (if t_success t then "Success" else "Failed"))%string)
    ∧ (∀ response, reply = Ok response → a_analysis a = response).
Proof.
  intros reply w'.
  destruct (analyze_results_run p t v w) as (Hret & Hhist & _).
  exists (analysis_from p t v reply). split_and!; try done.
  - intros e He. unfold analysis_from. simpl. by rewrite He.
  - intros r Hr. unfold analysis_from. simpl. by rewrite Hr.
Qed.

(** C2, as the code has it.  After a sequence of [analyze_results] calls
    the session holds one insight more for each call in which the language
    model replied, and none for a call in which it raised; the analysis
    history holds one analysis more for each call.  Whenever
    [get_session_summary] returns, its [total_insights] is that number of
    insights. *)
Theorem insights_count_generator_successes
    (calls : list (Proposal * TestResult * Validation)) (w : World E) :
  let w' := analyze_each calls w in
  length (session_insights w')
  = (length (session_insights w) + generator_successes calls w)%nat
  ∧ length (analyses w') = (length (analyses w) + length calls)%nat
  ∧ (∀ n, reported_insights w' = Ok n →
       n = (length (session_insights w) + generator_successes calls w)%nat).
Proof.
  destruct (analyze_each_counts calls w) as [Hs Ha].
  intros w'. split_and!; [done..|].
  intros n. unfold reported_insights, CognitionBase.get_session_summary. run.
  destruct (CognitionBase.py_set _ _); simpl; [|discriminate].
  intros [= <-]. done.
Qed.
End AnalystClaims.

(** C2, as the spec has it: after one [analyze_results] call in which the
    language model raised, [get_session_summary] reports no insight, not one. *)
Lemma generator_down_no_insight :
  reported_insights session_generator_down = Ok 0%nat
  ∧ reported_insights session_generator_down
    ≠ Ok (length [(sum_proposal, passing_test, goal_met)]).
Proof. split; [reflexivity|]. intros H. discriminate H. Qed.

Lemma session_search_analysed_insights :
  map i_strategy (session_insights session_search_analysed)
  = [RefNames ["Divide and Conquer"; "Iterative Refinement"]].
Proof. reflexivity. Qed.

Example search_session_summary_raises :
  (CognitionBase.get_session_summary session_search_analysed).1
  = Raise (PyExc "TypeError" "unhashable type: 'list'").
Proof. reflexivity. Qed.

(** ** The session summary *)

Section Summaries.
Context {E : Type} `{!Environment E}.

Lemma py_set_unhashable acc items :
  Exists (λ r, ref_hashable r = false) items →
  CognitionBase.py_set acc items = Raise unhashable_list.
Proof.
  intros Hex. revert acc.
  induction Hex as [r rest Hr|r rest _ IH]; intros acc; simpl.
  - by rewrite Hr.
  - destruct (ref_hashable r); [apply IH|done].
Qed.

Lemma py_set_hashable acc items :
  Forall (λ r, ref_hashable r = true) items →
  CognitionBase.py_set acc items = Ok (acc ∪ list_to_set items).
Proof.
  intros Hall. revert acc.
  induction Hall as [|r rest Hr _ IH]; intros acc; simpl.
  - by rewrite (right_id_L ∅ (∪)).
  - by rewrite Hr, IH, (assoc_L (∪)).
Qed.

(** Where every strategy reference that counts is hashable, the summary is
    the count, the log and the set of those references. *)
Lemma get_session_summary_returns (w : World E) :
  Forall (λ i, ref_truthy (i_strategy i) = true → ref_hashable (i_strategy i) = true)
    (session_insights w) →
  CognitionBase.get_session_summary w
  = (Ok {| total_insights := length (session_insights w);
           insights := session_insights w;
           strategies_used :=
             list_to_set (filter (λ r, ref_truthy r = true)
                            (map i_strategy (session_insights w))) |}, w).
Proof.
  intros Hall. unfold CognitionBase.get_session_summary. run.
  rewrite py_set_hashable.
  - run. by rewrite (left_id_L ∅ (∪)).
  - apply Forall_forall. intros r [Ht Hin]%list_elem_of_filter.
    apply list_elem_of_In, in_map_iff in Hin as (i & <- & Hi).
    rewrite Forall_forall in Hall. apply Hall; [|done].
    by apply list_elem_of_In.
Qed.

(** One logged insight whose strategy reference is a non-empty list is
    enough for the summary to raise. *)
Lemma get_session_summary_raises (w : World E) insight name names :
  insight ∈ session_insights w →
  i_strategy insight = RefNames (name :: names) →
  (CognitionBase.get_session_summary w).1 = Raise unhashable_list.
Proof.
  intros Hin Hs. unfold CognitionBase.get_session_summary. run.
  rewrite py_set_unhashable; [done|].
  apply Exists_exists. exists (RefNames (name :: names)). split; [|done].
  apply list_elem_of_filter. split; [done|].
  rewrite <- Hs. apply list_elem_of_In, in_map. by apply list_elem_of_In.
Qed.

(** C3, on the code.  After [analyze_results] has analysed, with a reply of
    the language model, a proposal that used at least one strategy, the
    session log holds an insight whose strategy reference is that list of
    names, and [get_session_summary] raises [TypeError] instead of returning
    a record. *)
Theorem session_summary_raises_after_analysis (p : Proposal) (t : TestResult)
    (v : Validation) (w : World E) (response : string) :
  p_strategies_used p ≠ [] →
  (query (Analyst.analysis_prompt p t v) Analyst.system_prompt (env w)).1
  = Ok response →
  let w' := (Analyst.analyze_results p t v w).2 in
  (∃ insight, last (session_insights w') = Some insight
              ∧ i_strategy insight = RefNames (p_strategies_used p))
  ∧ (CognitionBase.get_session_summary w').1
    = Raise (PyExc "TypeError" "unhashable type: 'list'").
Proof.
  intros Hused Hreply w'.
  destruct (analyze_results_run p t v w) as (_ & _ & Hlog).
  rewrite Hreply in Hlog. fold w' in Hlog.
  assert (∃ insight, last (session_insights w') = Some insight
                     ∧ i_strategy insight = RefNames (p_strategies_used p))
    as (insight & Hlast & Hs).
  { eexists. rewrite Hlog, last_snoc. done. }
  split; [by exists insight|].
  destruct (p_strategies_used p) as [|name names] eqn:Hnames; [done|].
  apply (get_session_summary_raises w' insight name names); [|done].
  apply last_Some in Hlast as [l' ->]. apply elem_of_app. right. by left.
Qed.
End Summaries.

(** The summary after the analysis of a proposal that used two strategies. *)
Lemma session_summary_raises_after_analysis_witness :
  p_strategies_used search_proposal ≠ []
  ∧ (CognitionBase.get_session_summary
       (Analyst.analyze_results search_proposal passing_test goal_met
          (Scripted.start (no_file [Ok "The search works."]))).2).1
    = Raise (PyExc "TypeError" "unhashable type: 'list'").
Proof.
  split; [discriminate|].
  apply (session_summary_raises_after_analysis search_proposal passing_test goal_met
           (Scripted.start (no_file [Ok "The search works."])) "The search works.").
  - discriminate.
  - reflexivity.
Defined.

(** With names instead of lists as strategy references, the summary is
    returned. *)
Example summary_of_named_strategies :
  ∃ s, (CognitionBase.get_session_summary
          (set_session_insights
             [ {| i_goal := "g"; i_strategy := RefName "Divide and Conquer";
                  i_success := true; i_key_learning := "k";
                  i_significance := 0.5; i_timestamp := None |};
               {| i_goal := "g"; i_strategy := RefNone;
                  i_success := false; i_key_learning := "k";
                  i_significance := 0.3; i_timestamp := None |} ]
             (Scripted.start (no_file [])))).1 = Ok s
       ∧ total_insights s = 2%nat
       ∧ strategies_used s = {[ RefName "Divide and Conquer" ]}.
Proof.
  eexists. rewrite get_session_summary_returns.
  - simpl. split_and!; [done..|]. by rewrite (right_id_L ∅ (∪)).
  - repeat constructor.
Qed.

(** ** Proposals *)

Section ResearcherRuns.
Context {E : Type} `{!Environment E}.

Lemma relevant_strategies goal (w : World E) :
  Forall (λ e, ∃ s, e = Strat s) (relevant goal w).
Proof.
  apply (relevant_is_strategy goal w).
  by rewrite get_relevant_strategies_run.
Qed.

Lemma for_each_strategy_line l :
  Forall (λ e, ∃ s, e = Strat s) l →
  for_each Researcher.strategy_line l = Ok (strategy_lines l).
Proof.
  induction 1 as [|e l [s ->] _ IH]; [done|].
  simpl. by rewrite IH.
Qed.

Lemma for_each_entry_name l :
  Forall (λ e, ∃ s, e = Strat s) l →
  for_each entry_name l = Ok (strategy_names l).
Proof.
  induction 1 as [|e l [s ->] _ IH]; [done|].
  simpl. by rewrite IH.
Qed.

Lemma propose_solution_run goal previous_attempt (w : World E) :
  let sent := Query (proposal_prompt goal previous_attempt w)
                Researcher.propose_system_prompt in
  let q := query (proposal_prompt goal previous_attempt w)
             Researcher.propose_system_prompt (env w) in
  let w1 :=
    set_env q.2
      (emit sent
         (emit (Log Researcher.logger INFO
                  ("Proposing solution for goal: " ++ goal)%string) w)) in
  Researcher.propose_solution goal previous_attempt w
  = match q.1 with
    | Ok response =>
        (Ok (proposal_from goal response w),
         emit (Log Researcher.logger INFO "Solution proposal generated successfully")
           (set_proposal_history
              (proposal_history w ++ [proposal_from goal response w]) w1))
    | Raise e =>
        (Raise e,
         emit (Log Researcher.logger ERROR
                 ("Failed to generate proposal: " ++ exc_str e)%string) w1)
    end.
Proof.
  unfold Researcher.propose_solution. run.
  rewrite get_relevant_strategies_run. run.
  cbn [emit knowledge env proposal_history]. fold (relevant goal w).
  rewrite (for_each_strategy_line _ (relevant_strategies goal w)).
  fold (proposal_prompt goal previous_attempt w).
  destruct (query _ _ _) as [[response|e] e']; run; [|done].
  rewrite (for_each_entry_name _ (relevant_strategies goal w)). done.
Qed.

Lemma refine_proposal_run proposal feedback (w : World E) :
  let sent := Query (Researcher.refinement_prompt proposal feedback)
                Researcher.refine_system_prompt in
  let q := query (Researcher.refinement_prompt proposal feedback)
             Researcher.refine_system_prompt (env w) in
  let w1 :=
    set_env q.2
      (emit sent
         (emit (Log Researcher.logger INFO "Refining proposal based on feedback") w)) in
  Researcher.refine_proposal proposal feedback w
  = match q.1 with
    | Ok response =>
        (Ok (refined_from proposal response),
         set_proposal_history
           (proposal_history w ++ [refined_from proposal response]) w1)
    | Raise e =>
        (Raise e,
         emit (Log Researcher.logger ERROR
                 ("Failed to refine proposal: " ++ exc_str e)%string) w1)
    end.
Proof.
  unfold Researcher.refine_proposal. run.
  destruct (query _ _ _) as [[response|e] e']; run; done.
Qed.
End ResearcherRuns.

Section ResearcherClaims.
Context {E : Type} `{!Environment E}.

(** C6. When [propose_solution] returns a proposal and [refine_proposal] is
    then called on it and returns, the refined proposal has the proposal's
    iteration plus one, is refined from the proposal's iteration, and has
    the proposal's goal and strategies; the history gains the proposal
    and then the refined proposal.  The result of the refinement does not
    depend on the catalogue: no strategy is retrieved again. *)
Theorem propose_then_refine goal previous_attempt feedback
    (w w1 w2 : World E) (p r : Proposal) :
  Researcher.propose_solution goal previous_attempt w = (Ok p, w1) →
  Researcher.refine_proposal p feedback w1 = (Ok r, w2) →
  p_iteration r = p_iteration p + 1
  ∧ p_refined_from r = Some (p_iteration p)
  ∧ p_iteration p = Z.of_nat (length (proposal_history w)) + 1
  ∧ p_goal p = goal
  ∧ p_goal r = goal
  ∧ p_strategies_used r = p_strategies_used p
  ∧ proposal_history w2 = proposal_history w ++ [p; r]
  ∧ ∀ k, (Researcher.refine_proposal p feedback (set_knowledge k w1)).1 = Ok r.
Proof.
  rewrite propose_solution_run, refine_proposal_run.
  destruct (query (proposal_prompt _ _ _) _ _) as [[response|e] e1];
    simpl; [|discriminate].
  intros [= <- <-]. simpl.
  destruct (query (Researcher.refinement_prompt _ _) _ e1) as [[response'|e] e2] eqn:Hq;
    simpl; [|discriminate].
  intros [= <- <-]. simpl.
  split_and!; try done.
  - by rewrite <- app_assoc.
  - intros k. rewrite refine_proposal_run. simpl. by rewrite Hq.
Qed.

(** C10. If the call to the language model raises during
    [propose_solution] or [refine_proposal], the method raises the same
    exception and the proposal history is as before: nothing was appended,
    the only traces are the log records and the query.  The next
    proposal that succeeds gets the iteration it would have got without
    the failed call, the length of that history plus one. *)
Theorem failed_generation_keeps_history (w : World E) (e : exception) :
  (∀ goal previous_attempt,
     (query (proposal_prompt goal previous_attempt w)
        Researcher.propose_system_prompt (env w)).1 = Raise e →
     let w' := (Researcher.propose_solution goal previous_attempt w).2 in
     (Researcher.propose_solution goal previous_attempt w).1 = Raise e
     ∧ proposal_history w' = proposal_history w
     ∧ trace w'
       = trace w
         ++ [Log Researcher.logger INFO ("Proposing solution for goal: " ++ goal)%string;
             Query (proposal_prompt goal previous_attempt w)
               Researcher.propose_system_prompt;
             Log Researcher.logger ERROR
               ("Failed to generate proposal: " ++ exc_str e)%string]
     ∧ ∀ goal' previous' p w'',
         Researcher.propose_solution goal' previous' w' = (Ok p, w'') →
         p_iteration p = Z.of_nat (length (proposal_history w)) + 1)
  ∧ (∀ proposal feedback,
       (query (Researcher.refinement_prompt proposal feedback)
          Researcher.refine_system_prompt (env w)).1 = Raise e →
       let w' := (Researcher.refine_proposal proposal feedback w).2 in
       (Researcher.refine_proposal proposal feedback w).1 = Raise e
       ∧ proposal_history w' = proposal_history w
       ∧ trace w'
         = trace w
           ++ [Log Researcher.logger INFO "Refining proposal based on feedback";
               Query (Researcher.refinement_prompt proposal feedback)
                 Researcher.refine_system_prompt;
               Log Researcher.logger ERROR
                 ("Failed to refine proposal: " ++ exc_str e)%string]
       ∧ ∀ goal' previous' p w'',
           Researcher.propose_solution goal' previous' w' = (Ok p, w'') →
           p_iteration p = Z.of_nat (length (proposal_history w)) + 1).
Proof.
  split.
  - intros goal prev Hq w'. subst w'. rewrite propose_solution_run.
    destruct (query _ _ _) as [r e1]. simpl in Hq. subst r. simpl.
    split_and!; [done|done|by rewrite <- !app_assoc|].
    intros goal' prev' p w''. rewrite propose_solution_run.
    destruct (query _ _ _).1; simpl; [|discriminate].
    by intros [= <- _].
  - intros proposal feedback Hq w'. subst w'. rewrite refine_proposal_run.
    destruct (query _ _ _) as [r e1]. simpl in Hq. subst r. simpl.
    split_and!; [done|done|by rewrite <- !app_assoc|].
    intros goal' prev' p w''. rewrite propose_solution_run.
    destruct (query _ _ _).1; simpl; [|discriminate].
    by intros [= <- _].
Qed.
End ResearcherClaims.

(** ** Recommendations *)

Section RecommendationClaim.
Context {E : Type} `{!Environment E}.

(** C9. [recommend_next_action] reads the analysis history and changes
    nothing.  With no analysis it recommends starting with a new proposal.
    Otherwise the last analysis decides: succeeded and meeting the goal,
    "Goal achieved"; succeeded and not meeting the goal, "Refine the
      logic"; failed with at least five analyses in the history,
    "Consider revising the goal or approach fundamentally"; failed with
    fewer than five, "Refine the current approach".  After five calls of
    [analyze_results] in a row on failed test results, the recommendation is
    to revise fundamentally. *)
Theorem recommend_next_action_table (w : World E) :
  (Analyst.recommend_next_action w).2 = w
  ∧ (analyses w = [] →
       (Analyst.recommend_next_action w).1
       = Ok "No data available. Start with a new proposal.")
  ∧ (∀ earlier a, analyses w = earlier ++ [a] →
       (a_success a = true → v_meets_goal (a_validation a) = true →
          (Analyst.recommend_next_action w).1
          = Ok "Goal achieved! Consider optimizing the solution or trying a more complex goal.")
       ∧ (a_success a = true → v_meets_goal (a_validation a) = false →
            (Analyst.recommend_next_action w).1
            = Ok "Solution runs but doesn't fully meet the goal. Refine the logic.")
       ∧ (a_success a = false → (5 ≤ length (analyses w))%nat →
            (Analyst.recommend_next_action w).1
            = Ok "Multiple attempts failed. Consider revising the goal or approach fundamentally.")
       ∧ (a_success a = false → (length (analyses w) < 5)%nat →
            (Analyst.recommend_next_action w).1
            = Ok "Refine the current approach based on the error feedback."))
  ∧ (∀ calls, length calls = 5%nat →
       Forall (λ c, t_success c.1.2 = false) calls →
       (Analyst.recommend_next_action (analyze_each calls w)).1
       = Ok "Multiple attempts failed. Consider revising the goal or approach fundamentally.").
Proof.
  assert (∀ w0 : World E, (Analyst.recommend_next_action w0).2 = w0) as Hsame.
  { intros w0. unfold Analyst.recommend_next_action. run.
    destruct (last _) as [a|]; [|done].
    by destruct (a_success a), (v_meets_goal (a_validation a)),
         (5 <=? length (analyses w0))%nat. }
  assert (∀ (w0 : World E) a, last (analyses w0) = Some a → a_success a = false →
            (5 ≤ length (analyses w0))%nat →
            (Analyst.recommend_next_action w0).1
            = Ok "Multiple attempts failed. Consider revising the goal or approach fundamentally.")
    as Hfail.
  { intros w0 a Hlast Hfailed Hlen. unfold Analyst.recommend_next_action. run.
    rewrite Hlast, Hfailed. cbn -[Nat.leb].
    destruct (Nat.leb_spec 5 (length (analyses w0))); [done|lia]. }
  split_and!.
  - apply Hsame.
  - intros Hnil. unfold Analyst.recommend_next_action. run. by rewrite Hnil.
  - intros earlier a Hhist.
    assert (last (analyses w) = Some a) as Hlast by (rewrite Hhist; apply last_snoc).
    split_and!.
    + intros Hs Hm. unfold Analyst.recommend_next_action. run.
      by rewrite Hlast, Hs, Hm.
    + intros Hs Hm. unfold Analyst.recommend_next_action. run.
      by rewrite Hlast, Hs, Hm.
    + intros Hs Hlen. by apply (Hfail w a).
    + intros Hs Hlen. unfold Analyst.recommend_next_action. run.
      rewrite Hlast, Hs. cbn -[Nat.leb].
      destruct (Nat.leb_spec 5 (length (analyses w))); [lia|done].
  - intros calls Hlen Hall.
    destruct calls as [|[[p t] v] rest _] using rev_ind; [discriminate|].
    apply Forall_app in Hall as [_ Hlast]. rewrite Forall_singleton in Hlast.
    simpl in Hlast.
    destruct (analyze_each_last rest p t v w) as (a & Ha & Hs & _).
    apply (Hfail _ a Ha); [congruence|].
    destruct (analyze_each_counts (rest ++ [(p, t, v)]) w) as [_ ->]. lia.
Qed.
End RecommendationClaim.

(** * Runs in the scripted environment *)

(** ** Retrieval *)

(** No tag of the seed strategies contains "paint" or "fence": nothing is
    retrieved, and the world is as before. *)
Lemma get_relevant_strategies_deterministic_witness :
  (CognitionBase.get_relevant_strategies "paint fence"
     (Scripted.start (no_file []))).1 = Ok []
  ∧ (CognitionBase.get_relevant_strategies "paint fence"
       (Scripted.start (no_file []))).2 = Scripted.start (no_file []).
Proof.
  destruct (get_relevant_strategies_deterministic "paint fence"
              (Scripted.start (no_file [])))
    as (found & Hrun & Hsame & _ & _ & _ & _ & _ & Hnone).
  split; [|exact Hsame].
  rewrite Hrun. simpl. f_equal. apply Hnone.
  intros s Hs Hm. apply some_applicable_matches in Hm.
  change (default [] (knowledge (Scripted.start (no_file [])) !! "strategies"))
    with [Strat CognitionBase.divide_and_conquer;
          Strat CognitionBase.iterative_refinement;
          Strat CognitionBase.pattern_recognition] in Hs.
  repeat (apply elem_of_cons in Hs as [->|Hs]; [vm_compute in Hm; discriminate Hm|]).
  by apply elem_of_nil in Hs.
Defined.

(** ** The significance gate *)

(** An insight of significance 0.9 becomes the first learned pattern; one
    of significance 0.5 leaves the seed catalogue as it is. *)
Lemma add_insight_gate_witness :
  ((0.7 <? i_significance notable_insight)%float = true
   ∧ length (learned_patterns
               (knowledge (CognitionBase.add_insight notable_insight
                             (Scripted.start (no_file []))).2)) = 1%nat)
  ∧ ((i_significance routine_insight <=? 0.7)%float = true
     ∧ knowledge (CognitionBase.add_insight routine_insight
                    (Scripted.start (no_file []))).2
       = CognitionBase.seed).
Proof.
  split.
  - split; [reflexivity|].
    destruct (add_insight_gate notable_insight (Scripted.start (no_file [])))
      as (_ & _ & Hhigh & _).
    destruct (Hhigh eq_refl) as (_ & _ & Hlen & _). exact Hlen.
  - split; [reflexivity|].
    destruct (add_insight_gate routine_insight (Scripted.start (no_file [])))
      as (_ & _ & _ & Hlow).
    destruct (Hlow eq_refl) as [Hk _]. exact Hk.
Defined.

(** ** Analyses *)

(** The degraded analysis of a call during which the language model timed
    out. *)
Lemma analyze_results_never_raises_witness :
  ∃ a, (Analyst.analyze_results sum_proposal passing_test goal_met
          (Scripted.start (no_file [timeout]))).1 = Ok a
       ∧ a_analysis a = "Analysis failed: Request timed out. Test result: Success"
       ∧ a_success a = true.
Proof.
  destruct (analyze_results_never_raises sum_proposal passing_test goal_met
              (Scripted.start (no_file [timeout])))
    as (a & Hret & _ & Hs & _ & _ & _ & Hdown & _).
  exists a. split; [exact Hret|]. split; [|exact Hs].
  exact (Hdown (PyExc "Exception" "Request timed out") eq_refl).
Defined.

(** Two analyses, one reply: one insight is reported. *)
Lemma insights_count_generator_successes_witness :
  generator_successes two_analyses (Scripted.start (no_file [Ok "xs is unbound."; timeout]))
  = 1%nat
  ∧ reported_insights
      (analyze_each two_analyses
         (Scripted.start (no_file [Ok "xs is unbound."; timeout]))) = Ok 1%nat
  ∧ length (analyses
              (analyze_each two_analyses
                 (Scripted.start (no_file [Ok "xs is unbound."; timeout])))) = 2%nat.
Proof.
  destruct (insights_count_generator_successes two_analyses
              (Scripted.start (no_file [Ok "xs is unbound."; timeout])))
    as (_ & Hlen & Hreport).
  split; [reflexivity|]. split; [|exact Hlen].
  assert (∃ n, reported_insights
                 (analyze_each two_analyses
                    (Scripted.start (no_file [Ok "xs is unbound."; timeout]))) = Ok n)
    as [n Hn] by (eexists; reflexivity).
  rewrite Hn. f_equal. exact (Hreport n Hn).
Defined.

(** ** Proposals *)

(** The search scenario proposed, then refined. *)
Lemma propose_then_refine_witness :
  (Researcher.propose_solution "optimize this search algorithm" None two_replies).1
  = Ok search_proposal
  ∧ (Researcher.refine_proposal search_proposal failing_test
       (Researcher.propose_solution "optimize this search algorithm" None
          two_replies).2).1
    = Ok refined_search_proposal
  ∧ p_iteration refined_search_proposal = p_iteration search_proposal + 1
  ∧ p_refined_from refined_search_proposal = Some (p_iteration search_proposal)
  ∧ p_strategies_used refined_search_proposal = p_strategies_used search_proposal.
Proof.
  split; [vm_compute; reflexivity|]. split; [vm_compute; reflexivity|].
  assert (Researcher.propose_solution "optimize this search algorithm" None two_replies
          = (Ok search_proposal,
             (Researcher.propose_solution "optimize this search algorithm" None
                two_replies).2)) as Hpropose by (vm_compute; reflexivity).
  assert (Researcher.refine_proposal search_proposal failing_test
            (Researcher.propose_solution "optimize this search algorithm" None
               two_replies).2
          = (Ok refined_search_proposal,
             (Researcher.refine_proposal search_proposal failing_test
                (Researcher.propose_solution "optimize this search algorithm" None
                   two_replies).2).2)) as Hrefine by (vm_compute; reflexivity).
  destruct (propose_then_refine _ _ _ _ _ _ _ _ Hpropose Hrefine)
    as (Hi & Hfrom & _ & _ & _ & Hused & _).
  split; [exact Hi|]. split; [exact Hfrom|exact Hused].
Defined.

(** A proposal and a refinement that fail, then a proposal that succeeds
    and is the first of the history. *)
Lemma failed_generation_keeps_history_witness :
  (Researcher.propose_solution "optimize this search algorithm" None down_then_up).1
  = Raise (PyExc "Exception" "Request timed out")
  ∧ proposal_history
      (Researcher.propose_solution "optimize this search algorithm" None
         down_then_up).2 = []
  ∧ (Researcher.refine_proposal search_proposal failing_test down_then_up).1
    = Raise (PyExc "Exception" "Request timed out")
  ∧ p_iteration search_proposal
    = Z.of_nat (length (proposal_history down_then_up)) + 1.
Proof.
  destruct (failed_generation_keeps_history down_then_up
              (PyExc "Exception" "Request timed out")) as [Hpropose Hrefine].
  assert ((query (proposal_prompt "optimize this search algorithm" None down_then_up)
             Researcher.propose_system_prompt (env down_then_up)).1
          = Raise (PyExc "Exception" "Request timed out")) as Hdown
    by (vm_compute; reflexivity).
  assert ((query (Researcher.refinement_prompt search_proposal failing_test)
             Researcher.refine_system_prompt (env down_then_up)).1
          = Raise (PyExc "Exception" "Request timed out")) as Hdown'
    by (vm_compute; reflexivity).
  destruct (Hpropose "optimize this search algorithm" None Hdown)
    as (Hraise & Hhist & _ & _).
  destruct (Hrefine search_proposal failing_test Hdown')
    as (Hraise' & _ & _ & Hnext).
  split; [exact Hraise|]. split; [exact Hhist|]. split; [exact Hraise'|].
  assert (Researcher.propose_solution "optimize this search algorithm" None
            (Researcher.refine_proposal search_proposal failing_test down_then_up).2
          = (Ok search_proposal,
             (Researcher.propose_solution "optimize this search algorithm" None
                (Researcher.refine_proposal search_proposal failing_test
                   down_then_up).2).2)) as Hnow
    by (vm_compute; reflexivity).
  exact (Hnext "optimize this search algorithm" None search_proposal _ Hnow).
Defined.

(** ** Recommendations *)

(** Five failed attempts in a row, and a session without analyses. *)
Lemma recommend_next_action_table_witness :
  (Analyst.recommend_next_action
     (analyze_each (replicate 5 (sum_proposal, failing_test, goal_missed))
        (Scripted.start (no_file [])))).1
  = Ok "Multiple attempts failed. Consider revising the goal or approach fundamentally."
  ∧ (Analyst.recommend_next_action (Scripted.start (no_file []))).1
    = Ok "No data available. Start with a new proposal.".
Proof.
  destruct (recommend_next_action_table (Scripted.start (no_file [])))
    as (_ & Hnone & _ & Hfive).
  split.
  - apply Hfive; [reflexivity|]. repeat constructor.
  - apply Hnone. reflexivity.
Defined.

(** The other three rows of the table. *)
Example recommendations_by_row :
  (Analyst.recommend_next_action
     (analyze_each [(sum_proposal, passing_test, goal_met)]
        (Scripted.start (no_file [])))).1
  = Ok "Goal achieved! Consider optimizing the solution or trying a more complex goal."
  ∧ (Analyst.recommend_next_action
       (analyze_each [(sum_proposal, passing_test, goal_missed)]
          (Scripted.start (no_file [])))).1
    = Ok "Solution runs but doesn't fully meet the goal. Refine the logic."
  ∧ (Analyst.recommend_next_action
       (analyze_each (replicate 4 (sum_proposal, failing_test, goal_missed))
          (Scripted.start (no_file [])))).1
    = Ok "Refine the current approach based on the error feedback.".
Proof. repeat split. Qed.

(** * Further properties *)

(** ** Strings *)

Lemma py_lower_char_idem (c : ascii) :
  py_lower_char (py_lower_char c) = py_lower_char c.
Proof. destruct c as [[] [] [] [] [] [] [] []]; reflexivity. Qed.

Lemma py_isspace_lower_char (c : ascii) :
  py_isspace (py_lower_char c) = py_isspace c.
Proof. destruct c as [[] [] [] [] [] [] [] []]; reflexivity. Qed.

Lemma py_lower_idem (s : string) : py_lower (py_lower s) = py_lower s.
Proof.
  induction s as [|c s IH]; [done|].
  simpl. by rewrite py_lower_char_idem, IH.
Qed.

Lemma py_lower_app (a b : string) :
  py_lower (a ++ b) = (py_lower a ++ py_lower b)%string.
Proof. induction a as [|c a IH]; [done|]. simpl. by rewrite IH. Qed.

Lemma all_space_lower (s : string) : all_space (py_lower s) = all_space s.
Proof.
  induction s as [|c s IH]; [done|].
  simpl. by rewrite py_isspace_lower_char, IH.
Qed.

Lemma split_from_all_space (word : list ascii) (s : string) :
  all_space s = true → split_from word s = split_from word "".
Proof.
  revert word. induction s as [|c s IH]; intros word Hs; [done|].
  simpl in Hs. apply andb_true_iff in Hs as [Hc Hs].
  simpl. rewrite Hc, (IH [] Hs). simpl. by rewrite app_nil_r.
Qed.

(** Splitting a string without a word yields no keyword, and only such a
    string does. *)
Lemma py_split_nil (s : string) : py_split s = [] ↔ all_space s = true.
Proof.
  unfold py_split. split.
  - assert (∀ word, split_from word s = [] → word = [] ∧ all_space s = true)
      as Hgen; [|intros Hs; by apply (Hgen [])].
    induction s as [|c s IH]; intros word; simpl.
    + destruct word; [done|discriminate].
    + destruct (py_isspace c); simpl.
      * intros [Hw Hs]%app_eq_nil. destruct (IH [] Hs) as [_ ->].
        by destruct word.
      * intros Hs. by destruct (IH _ Hs).
  - intros Hs. by rewrite split_from_all_space.
Qed.

(** Words on both sides of a whitespace character are split apart. *)
Lemma split_from_app (word : list ascii) (a b : string) (sep : ascii) :
  py_isspace sep = true →
  split_from word (a ++ String sep b)
  = split_from word a ++ split_from [] b.
Proof.
  intros Hsep. revert word. induction a as [|c a IH]; intros word.
  - simpl. by rewrite Hsep.
  - change (String c a ++ String sep b)%string with (String c (a ++ String sep b)).
    simpl. destruct (py_isspace c); rewrite IH; [|done].
    by rewrite app_assoc.
Qed.

(** ** Retrieval and the words of the description *)

Section RetrievalWords.
Context {E : Type} `{!Environment E}.

Lemma filter_sublist_weaken {A} (P Q : A → Prop)
    `{!∀ x, Decision (P x)} `{!∀ x, Decision (Q x)} (l : list A) :
  (∀ x, P x → Q x) → filter P l `sublist_of` filter Q l.
Proof.
  intros HPQ. induction l as [|x l IH]; [done|].
  rewrite !filter_cons. destruct (decide (P x)) as [HP|HP].
  - rewrite decide_True by auto. by constructor.
  - destruct (decide (Q x)); [by constructor|done].
Qed.

Lemma some_applicable_app keywords keywords' tags :
  CognitionBase.some_applicable (keywords ++ keywords') tags
  = CognitionBase.some_applicable keywords tags
    || CognitionBase.some_applicable keywords' tags.
Proof.
  apply eq_true_iff_eq. rewrite orb_true_iff, !some_applicable_spec. split.
  - intros (tag & k & Ht & Hk & Hin).
    apply elem_of_app in Hk as [Hk|Hk]; [left|right]; by exists tag, k.
  - intros [(tag & k & Ht & Hk & Hin)|(tag & k & Ht & Hk & Hin)];
      exists tag, k; split_and!; try done; apply elem_of_app; auto.
Qed.

Lemma keywords_app (d d' : string) (sep : ascii) :
  py_isspace sep = true →
  py_split (py_lower (d ++ String sep d'))
  = py_split (py_lower d) ++ py_split (py_lower d').
Proof.
  intros Hsep. unfold py_split. rewrite py_lower_app. simpl.
  apply split_from_app. by rewrite py_isspace_lower_char.
Qed.

(** X1. A description that is empty or holds only whitespace has no keyword
    and retrieves no strategy, whatever the catalogue. *)
Theorem blank_description_retrieves_nothing (d : string) (w : World E) :
  all_space d = true →
  CognitionBase.get_relevant_strategies d w = (Ok [], w).
Proof.
  intros Hd. rewrite get_relevant_strategies_run. do 2 f_equal.
  assert (py_split (py_lower d) = []) as ->.
  { apply py_split_nil. by rewrite all_space_lower. }
  apply elem_of_nil_inv. intros s [Hs _]%list_elem_of_filter.
  apply some_applicable_spec in Hs as (_ & k & _ & Hk & _).
  by apply elem_of_nil in Hk.
Qed.

(** X2. Letter case in the description is ignored: a description and its
    lowercase form retrieve the same strategies. *)
Theorem retrieval_ignores_case (d : string) (w : World E) :
  CognitionBase.get_relevant_strategies (py_lower d) w
  = CognitionBase.get_relevant_strategies d w.
Proof. rewrite !get_relevant_strategies_run. by rewrite py_lower_idem. Qed.

(** X3. Two descriptions joined by a whitespace character retrieve exactly
    the strategies that one of them retrieves alone: what each retrieves is
    a sublist of what the joined description retrieves, and nothing else
    is retrieved. *)
Theorem joined_descriptions_retrieve_union (d d' : string) (sep : ascii)
    (w : World E) :
  py_isspace sep = true →
  ∃ both left right,
    CognitionBase.get_relevant_strategies (d ++ String sep d') w = (Ok both, w)
    ∧ CognitionBase.get_relevant_strategies d w = (Ok left, w)
    ∧ CognitionBase.get_relevant_strategies d' w = (Ok right, w)
    ∧ left `sublist_of` both
    ∧ right `sublist_of` both
    ∧ ∀ s, s ∈ both ↔ s ∈ left ∨ s ∈ right.
Proof.
  intros Hsep. rewrite !get_relevant_strategies_run.
  rewrite (keywords_app d d' sep Hsep).
  eexists _, _, _. split_and!; try reflexivity.
  - apply filter_sublist_weaken. intros s. rewrite some_applicable_app.
    intros ->. done.
  - apply filter_sublist_weaken. intros s. rewrite some_applicable_app.
    intros ->. apply orb_true_r.
  - intros s. rewrite !list_elem_of_filter, some_applicable_app, orb_true_iff.
    tauto.
Qed.
End RetrievalWords.

Lemma blank_description_retrieves_nothing_witness :
  all_space "  " = true
  ∧ CognitionBase.get_relevant_strategies "  " (Scripted.start (no_file []))
    = (Ok [], Scripted.start (no_file [])).
Proof.
  split; [reflexivity|].
  apply (blank_description_retrieves_nothing "  " (Scripted.start (no_file []))).
  reflexivity.
Defined.

Lemma joined_descriptions_retrieve_union_witness :
  ∃ both left right,
    CognitionBase.get_relevant_strategies "search algorithm"
      (Scripted.start (no_file [])) = (Ok both, Scripted.start (no_file []))
    ∧ CognitionBase.get_relevant_strategies "search"
        (Scripted.start (no_file [])) = (Ok left, Scripted.start (no_file []))
    ∧ CognitionBase.get_relevant_strategies "algorithm"
        (Scripted.start (no_file [])) = (Ok right, Scripted.start (no_file []))
    ∧ left `sublist_of` both ∧ right `sublist_of` both.
Proof.
  destruct (joined_descriptions_retrieve_union "search" "algorithm" " "
              (Scripted.start (no_file [])) eq_refl)
    as (both & left & right & Hb & Hl & Hr & Hsl & Hsr & _).
  exists both, left, right.
  exact (conj Hb (conj Hl (conj Hr (conj Hsl Hsr)))).
Defined.

(** ** What every call keeps *)

Section Frames.
Context {E : Type} `{!Environment E} `{!SetOrder}.

Lemma dumps_app (t t' : list event) : dumps (t ++ t') = dumps t ++ dumps t'.
Proof.
  induction t as [|ev t IH]; [done|].
  simpl. destruct ev; simpl; by rewrite ?IH.
Qed.

Lemma continues_refl (w : World E) : continues w w.
Proof. by constructor. Qed.

Lemma continues_trans (w1 w2 w3 : World E) :
  continues w1 w2 → continues w2 w3 → continues w1 w3.
Proof.
  intros [] []. constructor; try congruence; by etrans.
Qed.

Lemma continues_emit ev (w : World E) : continues w (emit ev w).
Proof. constructor; simpl; try done. by apply prefix_app_r. Qed.

Lemma continues_set_env e (w : World E) : continues w (set_env e w).
Proof. by constructor. Qed.

Lemma add_insight_run (insight : Insight) (w : World E) :
  let stamped := set_timestamp (now_isoformat (env w)).1 insight in
  let w1 :=
    set_session_insights (session_insights w ++ [stamped])
      (set_env (now_isoformat (env w)).2 w) in
  CognitionBase.add_insight insight w
  = if (0.7 <? i_significance insight)%float then
      CognitionBase.save_knowledge
        (set_knowledge
           (<["learned_patterns" :=
                learned_patterns (knowledge w) ++ [Learned stamped]]> (knowledge w))
           w1)
    else (Ok tt, w1).
Proof.
  unfold CognitionBase.add_insight, learned_patterns. run.
  destruct (now_isoformat (env w)) as [t e]. run.
  change (i_significance (set_timestamp t insight)) with (i_significance insight).
  destruct (0.7 <? _)%float; [|done].
  destruct (decide _) as [[old Hold]|Hnone]; run; simpl in *.
  - done.
  - apply eq_None_not_Some in Hnone. rewrite Hnone. simpl.
    by rewrite lookup_insert_eq, insert_insert_eq.
Qed.

Lemma save_knowledge_continues (w : World E) :
  continues w (CognitionBase.save_knowledge w).2
  ∧ knowledge (CognitionBase.save_knowledge w).2 = knowledge w.
Proof.
  destruct (save_knowledge_run w) as [o ->]. simpl. split; [|done].
  constructor; simpl; try done. rewrite <- app_assoc. by apply prefix_app_r.
Qed.

Lemma add_insight_continues (insight : Insight) (w : World E) :
  continues w (CognitionBase.add_insight insight w).2.
Proof.
  rewrite add_insight_run. simpl.
  destruct (0.7 <? _)%float.
  - eapply continues_trans; [|apply save_knowledge_continues].
    constructor; simpl; try done.
    + by rewrite lookup_insert_ne.
    + by apply prefix_app_r.
  - constructor; simpl; try done. by apply prefix_app_r.
Qed.

Lemma recommend_next_action_same (w : World E) :
  (Analyst.recommend_next_action w).2 = w.
Proof.
  unfold Analyst.recommend_next_action. run.
  destruct (last _) as [a|]; [|done].
  by destruct (a_success a), (v_meets_goal (a_validation a)),
       (5 <=? length (analyses w))%nat.
Qed.

Lemma get_session_summary_same (w : World E) :
  (CognitionBase.get_session_summary w).2 = w.
Proof.
  unfold CognitionBase.get_session_summary. run.
  by destruct (CognitionBase.py_set _ _).
Qed.

Lemma generate_summary_report_run (w : World E) :
  Analyst.generate_summary_report w
  = match analyses w with
    | [] => (Ok "No analyses performed yet.", w)
    | _ =>
        match (CognitionBase.get_session_summary w).1 with
        | Ok session_summary =>
            (Ok (report_body (analyses w) ++ Analyst.insights_block session_summary)%string,
             w)
        | Raise e =>
            (Ok (report_body (analyses w)),
             emit (Log Analyst.logger WARNING
                     ("Failed to add session summary: " ++ exc_str e)%string) w)
        end
    end.
Proof.
  unfold Analyst.generate_summary_report. run.
  destruct (analyses w) as [|a history] eqn:Hh; [done|].
  run. pose proof (get_session_summary_same w) as Hsame.
  destruct (CognitionBase.get_session_summary w) as [[session_summary|e] w'];
    simpl in *; subst w'; done.
Qed.

Lemma analyze_results_world (p : Proposal) (t : TestResult) (v : Validation)
    (w : World E) :
  let w' := (Analyst.analyze_results p t v w).2 in
  knowledge_file w' = knowledge_file w
  ∧ knowledge w' = knowledge w
  ∧ proposal_history w' = proposal_history w
  ∧ dumps (trace w') = dumps (trace w)
  ∧ trace w `prefix_of` trace w'.
Proof.
  unfold Analyst.analyze_results. run.
  destruct (query _ _ _) as [[response|e] e']; run.
  - rewrite extract_insights_run. simpl. rewrite add_insight_run. simpl.
    assert ((0.7 <? (if t_success t then 0.5 else 0.3))%float = false) as ->
      by (by destruct (t_success t)).
    simpl. split_and!; try done.
    + by rewrite !dumps_app, !app_nil_r.
    + rewrite <- app_assoc. by apply prefix_app_r.
  - simpl. split_and!; try done.
    + by rewrite !dumps_app, !app_nil_r.
    + rewrite <- !app_assoc. by apply prefix_app_r.
Qed.

Lemma perform_continues (c : call) (w : World E) : continues w (perform c w).
Proof.
  destruct c as [goal prev|p fb|p t v| | |d| |insight|]; unfold perform.
  - rewrite propose_solution_run.
    destruct (query _ _ _) as [[response|e] e']; simpl;
      constructor; simpl; try done;
      try (by apply prefix_app_r); rewrite <- !app_assoc; by apply prefix_app_r.
  - rewrite refine_proposal_run.
    destruct (query _ _ _) as [[response|e] e']; simpl;
      constructor; simpl; try done;
      try (by apply prefix_app_r); rewrite <- !app_assoc; by apply prefix_app_r.
  - destruct (analyze_results_world p t v w) as (Hf & Hk & Hp & _ & Ht).
    destruct (analyze_results_run p t v w) as (_ & Ha & Hs).
    constructor; try done.
    + by rewrite Hk.
    + rewrite Hs. by apply prefix_app_r.
    + by rewrite Hp.
    + rewrite Ha. by apply prefix_app_r.
  - rewrite recommend_next_action_same. apply continues_refl.
  - rewrite generate_summary_report_run.
    destruct (analyses w); [apply continues_refl|].
    destruct (CognitionBase.get_session_summary w).1;
      [apply continues_refl|apply continues_emit].
  - rewrite get_relevant_strategies_run. apply continues_refl.
  - rewrite get_session_summary_same. apply continues_refl.
  - apply add_insight_continues.
  - apply save_knowledge_continues.
Qed.

Lemma session_continues (calls : list call) (w : World E) :
  continues w (session calls w).
Proof.
  revert w. induction calls as [|c calls IH]; intros w; simpl.
  - apply continues_refl.
  - eapply continues_trans; [apply perform_continues|apply IH].
Qed.
End Frames.

(** ** Sessions *)

Section Sessions.
Context {E : Type} `{!Environment E} `{!SetOrder}.

Lemma add_insight_proposals (insight : Insight) (w : World E) :
  proposal_history (CognitionBase.add_insight insight w).2 = proposal_history w.
Proof.
  rewrite add_insight_run. simpl. destruct (0.7 <? _)%float; [|done].
  match goal with
  | |- context [CognitionBase.save_knowledge ?w1] =>
      destruct (save_knowledge_run w1) as [o ->]
  end. done.
Qed.

Lemma save_knowledge_proposals (w : World E) :
  proposal_history (CognitionBase.save_knowledge w).2 = proposal_history w.
Proof. by destruct (save_knowledge_run w) as [o ->]. Qed.

Lemma generate_summary_report_world (w : World E) :
  let w' := (Analyst.generate_summary_report w).2 in
  knowledge w' = knowledge w
  ∧ proposal_history w' = proposal_history w
  ∧ dumps (trace w') = dumps (trace w).
Proof.
  rewrite generate_summary_report_run.
  destruct (analyses w); [done|].
  destruct (CognitionBase.get_session_summary w).1; simpl; [done|].
  split_and!; try done. by rewrite dumps_app, app_nil_r.
Qed.

Lemma numbered_snoc (history : list Proposal) (p : Proposal) :
  numbered history →
  match p_refined_from p with
  | None => p_iteration p = Z.of_nat (length history) + 1
  | Some from => p_iteration p = from + 1
  end →
  numbered (history ++ [p]).
Proof.
  intros Hh Hp i q Hq.
  apply lookup_app_Some in Hq as [Hq|[Hi Hq]]; [by apply Hh|].
  destruct (i - length history)%nat as [|n] eqn:Hn; [|done].
  simpl in Hq. injection Hq as <-.
  replace i with (length history) by lia. done.
Qed.

Lemma perform_numbered (c : call) (w : World E) :
  numbered (proposal_history w) → numbered (proposal_history (perform c w)).
Proof.
  intros Hw. destruct c as [goal prev|p fb|p t v| | |d| |insight|]; unfold perform.
  - rewrite propose_solution_run.
    destruct (query _ _ _) as [[response|e] e']; simpl; [|done].
    by apply numbered_snoc.
  - rewrite refine_proposal_run.
    destruct (query _ _ _) as [[response|e] e']; simpl; [|done].
    by apply numbered_snoc.
  - by destruct (analyze_results_world p t v w) as (_ & _ & -> & _).
  - by rewrite recommend_next_action_same.
  - by destruct (generate_summary_report_world w) as (_ & -> & _).
  - by rewrite get_relevant_strategies_run.
  - by rewrite get_session_summary_same.
  - by rewrite add_insight_proposals.
  - by rewrite save_knowledge_proposals.
Qed.

Lemma perform_quiet (c : call) (w : World E) :
  loop_call c = true →
  knowledge (perform c w) = knowledge w
  ∧ dumps (trace (perform c w)) = dumps (trace w).
Proof.
  intros Hc. destruct c as [goal prev|p fb|p t v| | |d| |insight|];
    try discriminate Hc; unfold perform.
  - rewrite propose_solution_run.
    destruct (query _ _ _) as [[response|e] e']; simpl;
      by rewrite !dumps_app, !app_nil_r.
  - rewrite refine_proposal_run.
    destruct (query _ _ _) as [[response|e] e']; simpl;
      by rewrite !dumps_app, !app_nil_r.
  - by destruct (analyze_results_world p t v w) as (_ & -> & _ & -> & _).
  - by rewrite recommend_next_action_same.
  - by destruct (generate_summary_report_world w) as (-> & _ & ->).
  - by rewrite get_relevant_strategies_run.
  - by rewrite get_session_summary_same.
Qed.

(** X4. Whatever is called during a session, the strategies of the
    catalogue stay the same: a description retrieves at the end of the
    session what it retrieved at its start. *)
Theorem retrieval_stable_in_session (calls : list call) (d : string) (w : World E) :
  knowledge (session calls w) !! "strategies" = knowledge w !! "strategies"
  ∧ (CognitionBase.get_relevant_strategies d (session calls w)).1
    = (CognitionBase.get_relevant_strategies d w).1.
Proof.
  destruct (session_continues calls w) as [_ Hs _ _ _ _].
  split; [done|]. rewrite !get_relevant_strategies_run. simpl. by rewrite Hs.
Qed.

(** X5. The proposal and analysis loop never changes the catalogue and never
    writes the knowledge file: after any sequence of calls other than a
    direct [add_insight] or [save_knowledge], the catalogue is the one the
    session started with and no write was attempted.  In particular no
    insight that [analyze_results] derives is ever promoted. *)
Theorem loop_never_touches_catalogue (calls : list call) (w : World E) :
  forallb loop_call calls = true →
  knowledge (session calls w) = knowledge w
  ∧ dumps (trace (session calls w)) = dumps (trace w).
Proof.
  revert w. induction calls as [|c calls IH]; intros w Hcalls; [done|].
  simpl in Hcalls. apply andb_true_iff in Hcalls as [Hc Hcalls].
  simpl. destruct (IH (perform c w) Hcalls) as [-> ->].
  by apply perform_quiet.
Qed.


(** X7. Iteration numbers in the proposal history: if every proposal that
    is not a refinement carries its position in the history, counted from
    one, and every refinement the iteration after the one it refines, then
    this still holds after any sequence of calls.  It holds of the empty
    history. *)
Theorem proposals_stay_numbered (calls : list call) (w : World E) :
  numbered (proposal_history w) →
  numbered (proposal_history (session calls w)).
Proof.
  revert w. induction calls as [|c calls IH]; intros w Hw; [done|].
  simpl. apply IH. by apply perform_numbered.
Qed.
End Sessions.

(** ** Truncated texts *)

Lemma py_take_length (n : nat) (s : string) :
  String.length (py_take n s) = Nat.min n (String.length s).
Proof.
  unfold py_take. revert s. induction n as [|n IH]; intros [|c s]; simpl; try done.
  by rewrite IH.
Qed.

Lemma py_take_prefix (n : nat) (s : string) :
  ∃ rest, s = (py_take n s ++ rest)%string.
Proof.
  unfold py_take. revert s. induction n as [|n IH]; intros [|c s]; simpl.
  - by exists "".
  - by eexists.
  - by exists "".
  - destruct (IH s) as [rest Hrest]. exists rest.
    change (String c s = String c (substring 0 n s ++ rest)). by f_equal.
Qed.

Lemma string_length_app (a b : string) :
  String.length (a ++ b) = (String.length a + String.length b)%nat.
Proof. induction a as [|c a IH]; [done|]. simpl. by rewrite IH. Qed.

Section Previews.
Context {E : Type} `{!Environment E}.

(** X8. The output of a test result as the analyst shows it to the language
    model: "None" when there is no output or an empty one; the output itself
    when it has at most 500 characters; otherwise its first 500 characters
    followed by "...", 503 characters in all.  [analyze_results] sends a
    prompt with this preview. *)
Theorem output_preview_truncates (p : Proposal) (t : TestResult) (v : Validation)
    (w : World E) :
  Query (AnalysisPrompt (p_goal p) (p_iteration p) (p_strategies_used p)
           (t_success t) (Analyst.output_preview t) (t_error t) (t_issues t)
           (v_meets_goal v) (v_confidence v) (v_notes v))
    Analyst.system_prompt
  ∈ trace (Analyst.analyze_results p t v w).2
  ∧ (t_output t = None ∨ t_output t = Some "" → Analyst.output_preview t = "None")
  ∧ (∀ output, t_output t = Some output → output ≠ "" →
       (String.length output ≤ 500)%nat → Analyst.output_preview t = output)
  ∧ (∀ output, t_output t = Some output → (500 < String.length output)%nat →
       Analyst.output_preview t = (py_take 500 output ++ "...")%string
       ∧ String.length (Analyst.output_preview t) = 503%nat
       ∧ ∃ rest, output = (py_take 500 output ++ rest)%string).
Proof.
  split_and!.
  - unfold Analyst.analyze_results. run.
    fold (Analyst.analysis_prompt p t v).
    destruct (query _ _ _) as [[response|e] e']; run.
    + rewrite extract_insights_run. simpl.
      match goal with
      | |- context [CognitionBase.add_insight ?i ?w0] =>
          destruct (add_insight_continues i w0) as [_ _ _ _ _ [k Hk]]
      end.
      simpl in Hk. simpl. rewrite Hk.
      apply elem_of_app. left. apply elem_of_app. right. by left.
    + simpl. apply elem_of_app. left. apply elem_of_app. right. by left.
  - unfold Analyst.output_preview. by intros [->| ->].
  - intros output Ho Hne Hlen. unfold Analyst.output_preview. rewrite Ho.
    destruct (String.eqb_spec output ""); [done|].
    destruct (Nat.ltb_spec 500 (String.length output)); [lia|done].
  - intros output Ho Hlen. unfold Analyst.output_preview. rewrite Ho.
    destruct (String.eqb_spec output "") as [->|_]; [simpl in Hlen; lia|].
    destruct (Nat.ltb_spec 500 (String.length output)); [|lia].
    split_and!; [done| |apply py_take_prefix].
    rewrite string_length_app, py_take_length, Nat.min_l by lia. done.
Qed.
End Previews.

(** ** What a proposal records *)

Section ProposalOutcome.
Context {E : Type} `{!Environment E}.


End ProposalOutcome.

(** ** What an analysis records *)

Section InsightOutcome.
Context {E : Type} `{!Environment E}.

(** X10. When the language model replies, [analyze_results] logs exactly one
    insight, last in the session log: it holds the proposal's goal, the
    proposal's list of strategies, the success flag of the test, the
    significance 0.5 on success and 0.3 on failure, the time read from the
    clock after the reply, and as key learning the first 200 characters of
    the reply (the whole reply when it is shorter), or "No analysis
    available" when the reply is empty; the key learning never exceeds 200
    characters. *)
Theorem analysis_logs_insight (p : Proposal) (t : TestResult) (v : Validation)
    (w : World E) (response : string) :
  (query (Analyst.analysis_prompt p t v) Analyst.system_prompt (env w)).1
  = Ok response →
  let w' := (Analyst.analyze_results p t v w).2 in
  ∃ insight,
    session_insights w' = session_insights w ++ [insight]
    ∧ i_goal insight = p_goal p
    ∧ i_strategy insight = RefNames (p_strategies_used p)
    ∧ i_success insight = t_success t
    ∧ i_significance insight = (if t_success t then 0.5 else 0.3)%float
    ∧ i_timestamp insight
      = Some (now_isoformat
                (query (Analyst.analysis_prompt p t v) Analyst.system_prompt
                   (env w)).2).1
    ∧ (response = "" → i_key_learning insight = "No analysis available")
    ∧ (response ≠ "" → i_key_learning insight = py_take 200 response
                       ∧ ∃ rest, response = (i_key_learning insight ++ rest)%string)
    ∧ ((String.length response ≤ 200)%nat → response ≠ "" →
         i_key_learning insight = response)
    ∧ (String.length (i_key_learning insight) ≤ 200)%nat.
Proof.
  intros Hreply w'.
  destruct (analyze_results_run p t v w) as (_ & _ & Hlog).
  fold w' in Hlog. rewrite Hreply in Hlog.
  eexists. split; [exact Hlog|]. simpl.
  split_and!; try done.
  - by intros ->.
  - intros Hne. destruct (String.eqb_spec response ""); [done|].
    split; [done|apply py_take_prefix].
  - intros Hlen Hne. destruct (String.eqb_spec response ""); [done|].
    destruct (py_take_prefix 200 response) as [rest Hrest].
    assert (String.length rest = 0%nat) as Hz.
    { apply (f_equal String.length) in Hrest.
      rewrite string_length_app, py_take_length in Hrest. lia. }
    destruct rest; [|discriminate Hz].
    rewrite Hrest at 2. clear.
    induction (py_take 200 response) as [|c s IH]; [done|].
    change (String c s = String c (s ++ "")). by f_equal.
  - destruct (String.eqb_spec response ""); [simpl; lia|].
    rewrite py_take_length. lia.
Qed.
End InsightOutcome.

(** ** The session summary and the report *)

Section Reports.
Context {E : Type} `{!Environment E} `{!SetOrder}.

(** X11. [get_session_summary] raises exactly when some logged insight
    refers to its strategies by a non-empty list, and then raises
    [TypeError].  Otherwise it returns, changing nothing, the number of
    logged insights, the log, and as strategies the set of the references
    that are non-empty names; every element of that set is such a name. *)
Theorem session_summary_raises_iff (w : World E) :
  let listed := λ i, ∃ name names, i_strategy i = RefNames (name :: names) in
  ((∃ i, i ∈ session_insights w ∧ listed i) →
     (CognitionBase.get_session_summary w).1 = Raise unhashable_list)
  ∧ ((∀ i, i ∈ session_insights w → ¬ listed i) →
       ∃ s, CognitionBase.get_session_summary w = (Ok s, w)
            ∧ total_insights s = length (session_insights w)
            ∧ insights s = session_insights w
            ∧ (∀ r, r ∈ strategies_used s
                    ↔ ref_truthy r = true
                      ∧ ∃ i, i ∈ session_insights w ∧ i_strategy i = r)
            ∧ (∀ r, r ∈ strategies_used s → ∃ name, r = RefName name ∧ name ≠ "")).
Proof.
  intros listed. split.
  - intros (i & Hi & name & names & Hs).
    by apply (get_session_summary_raises w i name names).
  - intros Hnone.
    assert (∀ r, ref_truthy r = true →
                 (∃ i, i ∈ session_insights w ∧ i_strategy i = r) →
                 ∃ name, r = RefName name ∧ name ≠ "") as Hname.
    { intros r Ht (i & Hi & <-).
      destruct (i_strategy i) as [|name|[|name names]] eqn:Hs; try discriminate Ht.
      - exists name. split; [done|]. intros ->. discriminate Ht.
      - destruct (Hnone i Hi). by exists name, names. }
    assert (∀ r, r ∈ filter (λ r, ref_truthy r = true)
                       (map i_strategy (session_insights w))
                 ↔ ref_truthy r = true
                   ∧ ∃ i, i ∈ session_insights w ∧ i_strategy i = r) as Hmem.
    { intros r. rewrite list_elem_of_filter, list_elem_of_In, in_map_iff. split.
      - intros [Ht (i & Hi & Hin)]. split; [done|].
        exists i. split; [by apply list_elem_of_In|done].
      - intros [Ht (i & Hin & Hi)]. split; [done|].
        exists i. split; [done|by apply list_elem_of_In]. }
    eexists. rewrite get_session_summary_returns.
    + split; [done|]. simpl. split_and!; try done.
      * intros r. by rewrite elem_of_list_to_set, Hmem.
      * intros r. rewrite elem_of_list_to_set, Hmem. intros [Ht Hi]. by apply Hname.
    + apply Forall_forall. intros i Hi Ht.
      destruct (Hname (i_strategy i) Ht) as (name & -> & _); [by exists i|done].
Qed.

Lemma report_body_lines (history : list Analysis) :
  report_body history
  = (Analyst.report_head (length history)
       (length (filter (λ a, a_success a = true) history))
     ++ String.concat "" (map Analyst.iteration_line history))%string.
Proof.
  unfold report_body.
  generalize (Analyst.report_head (length history)
                (length (filter (λ a, a_success a = true) history))).
  induction history as [|a history IH]; intros head; simpl.
  - induction head as [|c head IHh]; [done|].
    change (String c head = String c (head ++ "")). by f_equal.
  - rewrite IH. clear.
    assert (∀ x y z : string, ((x ++ y) ++ z = x ++ (y ++ z))%string) as Hassoc.
    { intros x y z. induction x as [|c x IHx]; [done|].
      change (String c ((x ++ y) ++ z) = String c (x ++ (y ++ z))). by f_equal. }
    rewrite Hassoc. f_equal.
    destruct history as [|b history]; simpl; [|done].
    induction (Analyst.iteration_line a) as [|c s IHs]; [done|].
    change (String c (s ++ "") = String c s). by f_equal.
Qed.

(** X12. [generate_summary_report] never raises and changes nothing but the
    trace, to which it adds at most one warning.  Without analyses the
    report is "No analyses performed yet." and nothing is logged.
    Otherwise the report begins with the head, which gives the number of
    analyses and of successful ones, followed by one line for each analysis
    in the order of the history; when the session summary raises, the
    report ends there and the failure is logged as a warning. *)
Theorem report_never_raises (w : World E) :
  let w' := (Analyst.generate_summary_report w).2 in
  ∃ report,
    (Analyst.generate_summary_report w).1 = Ok report
    ∧ (w' = w ∨ ∃ msg, w' = emit (Log Analyst.logger WARNING msg) w)
    ∧ (analyses w = [] → report = "No analyses performed yet." ∧ w' = w)
    ∧ (analyses w ≠ [] →
         ∃ rest,
           report
           = (Analyst.report_head (length (analyses w))
                (length (filter (λ a, a_success a = true) (analyses w)))
              ++ String.concat "" (map Analyst.iteration_line (analyses w))
              ++ rest)%string
           ∧ ∀ e, (CognitionBase.get_session_summary w).1 = Raise e →
                  rest = ""
                  ∧ w' = emit (Log Analyst.logger WARNING
                                 ("Failed to add session summary: " ++ exc_str e)%string)
                           w).
Proof.
  intros w'. subst w'. rewrite generate_summary_report_run.
  assert (∀ x y z : string, ((x ++ y) ++ z = x ++ (y ++ z))%string) as Hassoc.
  { intros x y z. induction x as [|c x IHx]; [done|].
    change (String c ((x ++ y) ++ z) = String c (x ++ (y ++ z))). by f_equal. }
  assert (∀ x : string, (x ++ "" = x)%string) as Hnil.
  { intros x. induction x as [|c x IHx]; [done|].
    change (String c (x ++ "") = String c x). by f_equal. }
  destruct (analyses w) as [|a history] eqn:Hh.
  - exists "No analyses performed yet.". simpl. split_and!; try done. by left.
  - destruct (CognitionBase.get_session_summary w).1 as [s|e]; eexists; simpl.
    + split_and!; [done|by left|done|]. intros _.
      exists (Analyst.insights_block s). split; [|done].
      by rewrite report_body_lines, Hassoc.
    + split_and!; [done|right; by eexists|done|]. intros _.
      exists "". split.
      * by rewrite report_body_lines, Hnil.
      * by intros e' [= <-].
Qed.

(** X13. Once [analyze_results] has analysed, with a reply of the language
    model, a proposal that used at least one strategy, no report of the
    session shows the insights any more: after any further calls,
    [generate_summary_report] returns the head and the lines of the analyses
    only, without "Insights Generated", and logs the warning "Failed to add
    session summary: unhashable type: 'list'". *)
Theorem report_omits_insights (p : Proposal) (t : TestResult) (v : Validation)
    (response : string) (calls : list call) (w : World E) :
  p_strategies_used p ≠ [] →
  (query (Analyst.analysis_prompt p t v) Analyst.system_prompt (env w)).1
  = Ok response →
  let w' := session calls (Analyst.analyze_results p t v w).2 in
  Analyst.generate_summary_report w'
  = (Ok (report_body (analyses w')),
     emit (Log Analyst.logger WARNING
             "Failed to add session summary: unhashable type: 'list'") w').
Proof.
  intros Hused Hreply w'.
  destruct (analyze_results_run p t v w) as (_ & Ha & Hlog).
  rewrite Hreply in Hlog.
  destruct (session_continues calls (Analyst.analyze_results p t v w).2)
    as [_ _ [k Hk] _ [k' Hk'] _].
  fold w' in Hk, Hk'. rewrite Hlog in Hk. rewrite Ha in Hk'.
  rewrite generate_summary_report_run.
  destruct (analyses w') as [|a history] eqn:Hh.
  { destruct (analyses w); discriminate Hk'. }
  destruct (p_strategies_used p) as [|name names] eqn:Hnames; [done|].
  assert (∃ i, i ∈ session_insights w' ∧ i_strategy i = RefNames (name :: names))
    as (i & Hi & Hs).
  { eexists. split.
    - rewrite Hk. apply elem_of_app. left. apply elem_of_app. right. by left.
    - simpl. by rewrite Hnames. }
  by rewrite (get_session_summary_raises w' i name names).
Qed.
End Reports.

(** ** Persistence *)

Section Persistence.
Context {E : Type} `{!Environment E}.

(** X14. A promoted insight survives a restart.  With a faithful store, if
    [add_insight] is given an insight of significance above 0.7 and the
    write it attempts is logged as successful, then a [CognitionBase]
    constructed afterwards loads the catalogue as [add_insight] left it,
    with the insight as last learned pattern, and starts with an empty
    session log. *)
Theorem promoted_insight_survives_restart (insight : Insight) (w : World E) :
  faithful_store →
  knowledge_file w = "cognition_knowledge.json" →
  (0.7 <? i_significance insight)%float = true →
  let w' := (CognitionBase.add_insight insight w).2 in
  last (trace w')
  = Some (Log CognitionBase.logger INFO "Knowledge base saved successfully") →
  knowledge (restart w') = knowledge w'
  ∧ last (learned_patterns (knowledge (restart w')))
    = Some (Learned (set_timestamp (now_isoformat (env w)).1 insight))
  ∧ session_insights (restart w') = []
  ∧ knowledge_file (restart w') = "cognition_knowledge.json".
Proof.
  intros Hstore Hfile Hsig w'. subst w'.
  rewrite add_insight_run, Hsig. simpl.
  set (k' := <["learned_patterns" := _]> (knowledge w)).
  unfold CognitionBase.save_knowledge. run. simpl. rewrite Hfile.
  destruct (json_dump _ k' _) as [[[]|e] e'] eqn:Hdump; run; simpl.
  - intros _. destruct (Hstore _ _ _ _ Hdump) as [Hex Hload].
    unfold restart, CognitionBase.init, CognitionBase._load_knowledge. run. simpl.
    rewrite Hex. run. simpl. rewrite Hload. simpl.
    split_and!; try done.
    subst k'. unfold learned_patterns at 1. rewrite lookup_insert_eq. simpl.
    apply last_snoc.
  - rewrite last_snoc. intros [=].
Qed.
End Persistence.

Lemma scripted_store_faithful : @faithful_store Scripted.t _.
Proof.
  intros path k e e'. simpl. destruct (Scripted.writable e); [|discriminate].
  by intros [= <-].
Qed.

(** A notable insight added in a world whose file name is set and whose file
    can be written. *)
Lemma promoted_insight_survives_restart_witness :
  (0.7 <? i_significance notable_insight)%float = true
  ∧ last (learned_patterns
            (knowledge
               (restart (CognitionBase.add_insight notable_insight
                           (Scripted.start (no_file []))).2)))
    = Some (Learned (set_timestamp "2025-01-01T00:00:00" notable_insight)).
Proof.
  split; [reflexivity|].
  destruct (promoted_insight_survives_restart notable_insight
              (Scripted.start (no_file [])) scripted_store_faithful
              eq_refl eq_refl) as (_ & Hlast & _).
  - vm_compute. reflexivity.
  - exact Hlast.
Defined.

(** ** Further runs in the scripted environment *)

(** The search loop leaves the seed catalogue and writes nothing. *)
Lemma loop_never_touches_catalogue_witness :
  forallb loop_call search_loop = true
  ∧ knowledge (session search_loop
                 (Scripted.start (no_file [Ok "def search(xs): ..."; Ok "Fine."])))
    = CognitionBase.seed
  ∧ dumps (trace (session search_loop
                    (Scripted.start (no_file [Ok "def search(xs): ..."; Ok "Fine."]))))
    = [].
Proof.
  split; [reflexivity|].
  apply (loop_never_touches_catalogue search_loop
           (Scripted.start (no_file [Ok "def search(xs): ..."; Ok "Fine."]))).
  reflexivity.
Defined.

(** From the empty history, a proposal refined twice: the history stays
    numbered, with the same iteration for both refinements. *)
Lemma proposals_stay_numbered_witness :
  numbered (proposal_history
              (session refine_twice
                 (Scripted.start (no_file [Ok "a"; Ok "b"; Ok "c"]))))
  ∧ map p_iteration
      (proposal_history
         (session refine_twice (Scripted.start (no_file [Ok "a"; Ok "b"; Ok "c"]))))
    = [1; 2; 2].
Proof.
  split; [|vm_compute; reflexivity].
  apply (proposals_stay_numbered refine_twice
           (Scripted.start (no_file [Ok "a"; Ok "b"; Ok "c"]))).
  intros i p Hp. discriminate Hp.
Defined.

(** An output of 600 characters is shown by its first 500 and the marker. *)
Lemma output_preview_truncates_witness :
  (500 < String.length long_output)%nat
  ∧ String.length (Analyst.output_preview verbose_test) = 503%nat.
Proof.
  assert (500 < String.length long_output)%nat as Hlong
    by (vm_compute; repeat constructor).
  split; [exact Hlong|].
  destruct (output_preview_truncates sum_proposal verbose_test goal_met
              (Scripted.start (no_file []))) as (_ & _ & _ & Hcut).
  destruct (Hcut long_output eq_refl Hlong) as (_ & Hlen & _). exact Hlen.
Defined.

(** The insight logged for the search proposal. *)
Lemma analysis_logs_insight_witness :
  ∃ insight,
    session_insights
      (Analyst.analyze_results search_proposal passing_test goal_met
         (Scripted.start (no_file [Ok "The search works."]))).2 = [insight]
    ∧ i_key_learning insight = "The search works."
    ∧ i_significance insight = 0.5%float.
Proof.
  assert ((query (Analyst.analysis_prompt search_proposal passing_test goal_met)
             Analyst.system_prompt
             (env (Scripted.start (no_file [Ok "The search works."])))).1
          = Ok "The search works.") as Hreply by (vm_compute; reflexivity).
  destruct (analysis_logs_insight search_proposal passing_test goal_met
              (Scripted.start (no_file [Ok "The search works."]))
              "The search works." Hreply)
    as (insight & Hlog & _ & _ & _ & Hsig & _ & _ & _ & Hwhole & _).
  exists insight. split; [exact Hlog|]. split; [|exact Hsig].
  apply Hwhole; [vm_compute; repeat constructor|discriminate].
Defined.

(** Three insights, two of them with the same name: one strategy is
    reported. *)
Lemma session_summary_raises_iff_witness :
  ∃ s, CognitionBase.get_session_summary
         (set_session_insights named_insights (Scripted.start (no_file [])))
       = (Ok s, set_session_insights named_insights (Scripted.start (no_file [])))
       ∧ total_insights s = 3%nat
       ∧ RefName "Divide and Conquer" ∈ strategies_used s.
Proof.
  destruct (session_summary_raises_iff
              (set_session_insights named_insights (Scripted.start (no_file []))))
    as [_ Hreturns].
  destruct Hreturns as (s & Hs & Htotal & _ & Hmem & _).
  - intros i Hi (name & names & Hlisted). simpl in Hi.
    repeat (apply elem_of_cons in Hi as [->|Hi]; [discriminate Hlisted|]).
    by apply elem_of_nil in Hi.
  - exists s. split; [exact Hs|]. split; [exact Htotal|].
    apply Hmem. split; [reflexivity|].
    eexists. split; [simpl; left|reflexivity].
Defined.

(** Before any analysis the report is the fixed message. *)
Lemma report_never_raises_witness :
  (Analyst.generate_summary_report (Scripted.start (no_file []))).1
  = Ok "No analyses performed yet.".
Proof.
  destruct (report_never_raises (Scripted.start (no_file [])))
    as (report & -> & _ & Hnone & _).
  destruct (Hnone eq_refl) as [-> _]. reflexivity.
Defined.

(** After the analysis of the search proposal and two more calls, the report
    has no insights block. *)
Lemma report_omits_insights_witness :
  p_strategies_used search_proposal ≠ []
  ∧ (Analyst.generate_summary_report
       (session [Recommend; Analyze sum_proposal failing_test goal_missed]
          (Analyst.analyze_results search_proposal passing_test goal_met
             (Scripted.start (no_file [Ok "The search works."; timeout]))).2)).1
    = Ok (report_body
            (analyses
               (session [Recommend; Analyze sum_proposal failing_test goal_missed]
                  (Analyst.analyze_results search_proposal passing_test goal_met
                     (Scripted.start (no_file [Ok "The search works."; timeout]))).2))).
Proof.
  split; [discriminate|].
  rewrite (report_omits_insights search_proposal passing_test goal_met
             "The search works."
             [Recommend; Analyze sum_proposal failing_test goal_missed]
             (Scripted.start (no_file [Ok "The search works."; timeout])));
    [reflexivity|discriminate|reflexivity].
Defined.

(** ** A write that fails *)

Section FailedWrite.
Context {E : Type} `{!Environment E}.

(** X15. A write that fails does not lose the insight in memory.  When
    [add_insight] is given an insight of significance above 0.7 and writing
    the knowledge file raises, [add_insight] still returns normally, the
    insight is in the session log and is the last learned pattern of the
    catalogue in memory, and the failure is logged as the error "Failed to
    save knowledge: " followed by the message of the exception, right after
    the attempt. *)
Theorem failed_write_keeps_insight (insight : Insight) (w : World E)
    (e : exception) :
  let stamped := set_timestamp (now_isoformat (env w)).1 insight in
  let updated :=
    <["learned_patterns" := learned_patterns (knowledge w) ++ [Learned stamped]]>
      (knowledge w) in
  (0.7 <? i_significance insight)%float = true →
  (json_dump (knowledge_file w) updated (now_isoformat (env w)).2).1 = Raise e →
  let w' := (CognitionBase.add_insight insight w).2 in
  (CognitionBase.add_insight insight w).1 = Ok tt
  ∧ knowledge w' = updated
  ∧ last (learned_patterns (knowledge w')) = Some (Learned stamped)
  ∧ last (session_insights w') = Some stamped
  ∧ trace w'
    = trace w
      ++ [Dump (knowledge_file w) updated;
          Log CognitionBase.logger ERROR
            ("Failed to save knowledge: " ++ exc_str e)%string].
Proof.
  intros stamped updated Hsig Hdump w'. subst w'.
  rewrite add_insight_run, Hsig. fold stamped updated.
  unfold CognitionBase.save_knowledge. run. simpl.
  destruct (json_dump _ _ _) as [r e']. simpl in Hdump. subst r. run. simpl.
  split_and!; try done.
  - subst updated. unfold learned_patterns at 1.
    rewrite lookup_insert_eq. simpl. apply last_snoc.
  - apply last_snoc.
  - by rewrite <- app_assoc.
Qed.
End FailedWrite.

(** The insight is kept although the file cannot be written. *)
Lemma failed_write_keeps_insight_witness :
  (0.7 <? i_significance notable_insight)%float = true
  ∧ (CognitionBase.add_insight notable_insight read_only_world).1 = Ok tt
  ∧ last (learned_patterns
            (knowledge (CognitionBase.add_insight notable_insight read_only_world).2))
    = Some (Learned (set_timestamp "2025-01-01T00:00:00" notable_insight)).
Proof.
  split; [reflexivity|].
  assert ((json_dump (knowledge_file read_only_world)
             (<["learned_patterns" :=
                  learned_patterns (knowledge read_only_world)
                  ++ [Learned (set_timestamp
                                 (now_isoformat (env read_only_world)).1
                                 notable_insight)]]>
                (knowledge read_only_world))
             (now_isoformat (env read_only_world)).2).1
          = Raise Scripted.read_only) as Hdump by reflexivity.
  destruct (failed_write_keeps_insight notable_insight read_only_world
              Scripted.read_only eq_refl Hdump)
    as (Hok & _ & Hlast & _).
  split; [exact Hok|exact Hlast].
Defined.
